(** * Clause recommendation service: a model of the service module

    The development embeds the two upload handlers of the FastAPI
    application, [process_contract] ("/process/") and [find_clauses]
    ("/find_clauses/"), and proves properties of the retrieval step, of
    the bounded conversation with the completion service and of the
    embedding cache shared by the two handlers.  It also embeds the
    credential check with the three page routes, and the step of
    [process_contract] that chooses between the Markdown rendering and
    the plain highlighting.

    Conventions of the embedding.
    - Python [str] is [string]; a character is one [ascii] code, so the
      model covers uploads whose text and file name stay in the ASCII
      range.  The literals of the source are written out in UTF-8.
    - Python [bytes] is [list byte].
    - Float literals ([0], [0.1], [0.8]) are the decimal rationals they
      denote.
    - The module-level dictionary [embedding_cache] is a [gmap] keyed by
      the hexadecimal digest; the dictionaries [name_to_child] and
      [name_to_url] are [gmap string string].
    - The handlers run in a monad that threads the shared state and
      carries Python's early [return].  The state also records every
      request sent to the completion service, in order.
    - Functions of the [utils] module, the digest and the completion
      client are an interface; the handlers are generic in it.  The
      model objects that the source passes to them unchanged
      ([tokenizer], [c_model], [clf], [umap_model], [clause_tags],
      [emission_df]) are part of an implementation of the interface.
      A call to a function of [utils] or to the completion client
      returns; the exceptions modelled are the one the source catches
      (the conversion to text), the refusal of a frame whose columns
      differ in length, and those of the directory and file operations
      of [process_contract].
    - The completion service answers as a function of the request.  The
      requests of one run differ in their messages, so every sequence
      of replies within a run is covered.
    - The file system is not modelled as a store: no modelled value
      is read back from it.  The operations of [process_contract] on it
      are calls whose only modelled effect is to return or to raise. *)

From Stdlib Require Import Strings.String Strings.Ascii Strings.Byte List ZArith QArith Lia Bool.
From stdpp Require Import base option list gmap strings pretty.


(** ** Python string operations used by the handlers *)

Module Py.

(** [c.lower()] on one character of the ASCII range. *)
Definition lower_char (c : ascii) : ascii :=
  let n := nat_of_ascii c in
  if (65 <=? n)%nat && (n <=? 90)%nat then ascii_of_nat (n + 32) else c.

(** [s.lower()]. *)
Fixpoint lower (s : string) : string :=
  match s with
  | EmptyString => EmptyString
  | String c s' => String (lower_char c) (lower s')
  end.

(** [s.startswith(p)]. *)
Fixpoint startswith (s p : string) : bool :=
  match p, s with
  | EmptyString, _ => true
  | String _ _, EmptyString => false
  | String a p', String b s' => if ascii_dec a b then startswith s' p' else false
  end.

(** [s[n:]]. *)
Fixpoint drop (n : nat) (s : string) : string :=
  match n, s with
  | O, _ => s
  | S _, EmptyString => EmptyString
  | S n', String _ s' => drop n' s'
  end.

(** [s[:n]]. *)
Fixpoint take (n : nat) (s : string) : string :=
  match n, s with
  | O, _ => EmptyString
  | S _, EmptyString => EmptyString
  | S n', String c s' => String c (take n' s')
  end.

(** [s.endswith(ext)]: [ext] is no longer than [s] and the last
    [len(ext)] characters of [s] are [ext]. *)
Definition endswith (s ext : string) : bool :=
  (String.length ext <=? String.length s)%nat
  && String.eqb (drop (String.length s - String.length ext) s) ext.

(** [sep.join(l)]. *)
Fixpoint join (sep : string) (l : list string) : string :=
  match l with
  | [] => EmptyString
  | [x] => x
  | x :: l' => x +:+ sep +:+ join sep l'
  end.

(** [c.isspace()] on the ASCII range: tab, line feed, vertical tab,
    form feed, carriage return, the four separators 28..31, space. *)
Definition isspace (c : ascii) : bool :=
  let n := nat_of_ascii c in
  ((9 <=? n)%nat && (n <=? 13)%nat) || ((28 <=? n)%nat && (n <=? 32)%nat).

Fixpoint lstrip (s : string) : string :=
  match s with
  | EmptyString => EmptyString
  | String c s' => if isspace c then lstrip s' else s
  end.

Fixpoint rstrip (s : string) : string :=
  match s with
  | EmptyString => EmptyString
  | String c s' =>
      match rstrip s' with
      | EmptyString => if isspace c then EmptyString else String c EmptyString
      | r => String c r
      end
  end.

(** [s.strip()]. *)
Definition strip (s : string) : string := rstrip (lstrip s).

(** [s.replace(old, new)] for a non-empty [old]: occurrences are
    replaced from the left and do not overlap.  [skip] counts the
    characters of the occurrence in progress still to be dropped. *)
Fixpoint replace_go (old new : string) (skip : nat) (s : string) : string :=
  match s with
  | EmptyString => EmptyString
  | String c s' =>
      match skip with
      | S k => replace_go old new k s'
      | O =>
          if startswith s old
          then new +:+ replace_go old new (String.length old - 1) s'
          else String c (replace_go old new 0 s')
      end
  end.

Definition replace (s old new : string) : string := replace_go old new 0 s.

(** [os.path.join(a, *p)] of the POSIX flavour: a component that
    begins with "/" starts the path anew; otherwise it is appended,
    after a "/" unless the path so far is empty or ends with one. *)
Definition os_path_join (a : string) (p : list string) : string :=
  fold_left
    (fun path b =>
       if startswith b "/" then b
       else if String.eqb path "" || endswith path "/" then path +:+ b
       else path +:+ "/" +:+ b)
    p a.

(** [s.rfind(c)] for a character [c]: the index of its last occurrence. *)
Fixpoint rfind (c : ascii) (s : string) : option nat :=
  match s with
  | EmptyString => None
  | String x s' =>
      match rfind c s' with
      | Some i => Some (S i)
      | None => if ascii_dec x c then Some O else None
      end
  end.

(** Some character of [s] differs from [c]. *)
Fixpoint has_other (c : ascii) (s : string) : bool :=
  match s with
  | EmptyString => false
  | String x s' => if ascii_dec x c then has_other c s' else true
  end.

(** [os.path.splitext(p)[0]] of the POSIX flavour: [p] up to its last
    dot when that dot lies in the last component and is preceded there
    by a character other than a dot; otherwise [p]. *)
Definition splitext_root (p : string) : string :=
  match rfind "." p with
  | None => p
  | Some dotIndex =>
      let filenameIndex :=
        match rfind "/" p with
        | Some sepIndex => S sepIndex
        | None => O
        end in
      if (filenameIndex <=? dotIndex)%nat
         && has_other "." (take (dotIndex - filenameIndex) (drop filenameIndex p))
      then take dotIndex p
      else p
  end.

(** [any(f(x) for x in l)]. *)
Definition any {A} (f : A -> bool) (l : list A) : bool := existsb f l.

(** [str(n)] for a non-negative integer. *)
Definition str_of_nat (n : nat) : string := pretty n.

End Py.

(** ** Data of the service *)

(** The outcome of a call placed under [try]/[except Exception]. *)
Inductive result (A : Type) : Type :=
| Ok (a : A)
| Raised (msg : string).

Arguments Ok {A} a.
Arguments Raised {A} msg.

(** The uploaded file: its name and the bytes [await file.read()]
    yields. *)
Record UploadFile : Type := {
  filename : string;
  file_bytes : list byte
}.

(** One entry of the [messages] list. *)
Record Message : Type := {
  role : string;
  content : string
}.

(** The keyword arguments of [client.chat.completions.create]. *)
Record CompletionRequest : Type := {
  model : string;
  messages : list Message;
  temperature : Q;
  max_tokens : option Z
}.

(** A row of [combined_df]. *)
Record CandidateClause : Type := {
  text : string;
  source_name : string;
  matched_by : string
}.

(** A row of the frame [utils.parse_response] returns. *)
Record SelectionRow : Type := {
  Clause_Name : string;
  Reasoning : string
}.

(** What the caller reads of the value of [utils.find_top_similar_bow]. *)
Record BowResults : Type := {
  Documents : list string;
  Top_Matches : list string
}.

(** A row of the frame after [utils.get_emission_label]:
    [row.get("combined_labels")] is [None] when the column is absent. *)
Record EnrichedRow (Labels : Type) : Type := {
  row_Clause_Name : string;
  row_Reasoning : string;
  combined_labels : option Labels
}.

Arguments row_Clause_Name {Labels} _.
Arguments row_Reasoning {Labels} _.
Arguments combined_labels {Labels} _.

(** One element of the ["matches"] list of the reply. *)
Record Match (Sources : Type) : Type := {
  name : string;
  child_name : string;
  clause_url : string;
  reason : string;
  emissions_sources : Sources
}.

Arguments name {Sources} _.
Arguments child_name {Sources} _.
Arguments clause_url {Sources} _.
Arguments reason {Sources} _.
Arguments emissions_sources {Sources} _.

(** The value stored under a digest in [embedding_cache], a dictionary
    with the keys ['embedding'] and ['text']. *)
Record CacheEntry (Embedding : Type) : Type := {
  entry_embedding : Embedding;
  entry_text : string
}.

Arguments entry_embedding {Embedding} _.
Arguments entry_text {Embedding} _.

(** What a handler hands back to the framework. *)
Inductive Response (Sources Classification : Type) : Type :=
| JSONResponse_error (error : string) (status_code : Z)
    (* JSONResponse(content={"error": error}, status_code=status_code) *)
| JSONResponse_classification (response : Classification)
    (* JSONResponse(content=response) at the end of process_contract *)
| dict_matches (matches : list (Match Sources))
    (* return {"matches": matches} *)
| unhandled_ValueError
    (* pandas refuses columns of different lengths; nothing catches it *)
| unhandled_OSError (msg : string).
    (* a directory or file operation of process_contract raises *)

Arguments JSONResponse_error {Sources Classification} error status_code.
Arguments JSONResponse_classification {Sources Classification} response.
Arguments dict_matches {Sources Classification} matches.
Arguments unhandled_ValueError {Sources Classification}.
Arguments unhandled_OSError {Sources Classification} msg.

(** ** The collaborators

    [hashlib.md5(..).hexdigest()], the functions of [utils], the
    completion client and the file system under [BASE_DIR].
    [recreate_directories] is the outcome of lines 113-116 (removing
    and recreating [temp_dir], creating [output_dir]); [write_bytes] and
    [write_text] are the outcomes of opening a path for writing and
    writing to it (lines 133-134 and 151-152).  None of the three is
    under a [try], so [Raised] ends the handler.  [perform_cluster] and
    [get_embedding_matches_subset] return triples of which the handler
    keeps two components; the interface returns those two.
    [classify_and_render] stands for lines 154-178 and 188-246 of
    [process_contract]: the Markdown conversion, the sentence
    classifier, the rendering, the buckets and the assembly of the
    reply; none of them reads or writes [embedding_cache]. *)
Class Collaborators : Type := {
  Embedding : Type;
  Labels : Type;
  Sources : Type;
  Classification : Type;
  md5_hexdigest : list byte -> string;
  convert_file_to_text : list byte -> string -> result string;
  encode_text : string -> Embedding;
  perform_cluster : Embedding -> list string * list string;
  find_top_similar_bow :
    string -> list string -> list string -> Q -> nat -> BowResults;
  get_embedding_matches_subset :
    Embedding -> list string -> list string -> nat -> list string * list string;
  parse_response : string -> option (list SelectionRow);
  get_close_matches : string -> list string -> nat -> Q -> list string;
  get_emission_label : list SelectionRow -> list (EnrichedRow Labels);
  parse_emissions_sources : option Labels -> Sources;
  chat_completions_create : CompletionRequest -> string;
  classify_and_render : UploadFile -> string -> Classification;
  BASE_DIR : string;
  recreate_directories : result unit;
  write_bytes : string -> list byte -> result unit;
  write_text : string -> string -> result unit
}.

(** The tables loaded when the module is imported (line 82) and the
    environment variable read on line 96. *)
Record Globals : Type := {
  names : list string;
  docs : list string;
  name_to_child : gmap string string;
  name_to_url : gmap string string;
  getenv_OPENROUTER_MODEL : option string
}.

Definition DEFAULT_MODEL : string := "tngtech/deepseek-r1t2-chimera:free".

(** [os.getenv("OPENROUTER_MODEL", DEFAULT_MODEL)]. *)
Definition OPENROUTER_MODEL (g : Globals) : string :=
  default DEFAULT_MODEL (getenv_OPENROUTER_MODEL g).

Definition allowed_extensions : list string :=
  [".txt"; ".pdf"; ".docx"; ".doc"; ".md"].

(** The test of lines 120 and 252, before the [not]. *)
Definition extension_allowed (fname : string) : bool :=
  Py.any (fun ext => Py.endswith (Py.lower fname) ext) allowed_extensions.

Definition nl : string := String "010"%char EmptyString.
Definition dquote : string := String "034"%char EmptyString.

(** ** The prompts (lines 306-315, 327-364 and 396-404) *)

Definition system_prompt : string :=
  "You are a legal AI assistant that helps review and select climate-aligned clauses for the uploaded document. You can only select from those clauses provided to you. We are trying to help the writers of the document integrate climate-aligned language.".

Definition contract_prompt (query_text_short : string) : string :=
  "Here's the contract:" +:+ nl +:+ nl +:+ Py.strip query_text_short +:+ nl +:+ nl
  +:+ "I will send you some clauses next. For now, just confirm you have read the contract and are ready to receive the clauses. A short summary of the content of the contract would be fine.".

Definition selection_rules_lines : list string := [
    "Select the clauses from the list that best align with the contract. ";
    "    It is really important that you answer this consistently and the same way every time. If I upload the same contract against, I expect to see the same answer. ";
    "    ";
    "    This is a two step process. ";
    "    ";
    "    Step 1: Binary select the clauses that are a good fit for the contract. Go through one by one and remember which ones you selected as a potential fit. As a rule of thumb, give no fewer than 3 and no more than 7. If there is good reason, you can do fewer or more.";
    "    Step 2: Go through those that you have selected as a fit and provide reasoning. Feel free to reconsider whether they are a fit once you go through them again. ";
    "    ";
    "    Before you being, read the rules below. They should guide you on both steps. ";
    "    ";
    "    Follow these rules:";
    "";
    "    1. Your response must be a JSON of exactly as many objects as there are clauses you have selected as a fit, each with the keys " +:+ dquote +:+ "Clause Name" +:+ dquote +:+ " and " +:+ dquote +:+ "Reasoning" +:+ dquote +:+ ".";
    "    3. Only select from the clauses provided — do not invent new ones.";
    "    4. Remember the contract’s **content and purpose**. Their goal is likely not to reduce their emissions, but to meet other business or legal needs. We are telling them where they can inject climate-aligned language into the existing contract but the existing contract and its goals are the most important consideration.";
    "    5. Pay close attention to what the contract is **doing** — the transaction type, structure, and key obligations — not just who the parties are or what sector they operate in.";
    "    - Clauses must fit the **actual function and scope** of the contract.";
    "    - For example, do not recommend a clause about land access if the contract is about software licensing.";
    "    - Another example: do not recommend a clause about insurance if the contract is establishing a joint venture.";
    "    6. Consider the relationship between the parties (e.g. supplier–customer, insurer–insured, JV partners).";
    "    - If a clause assumes a different relationship, only suggest it if it can **realistically be adapted**, and explain how.";
    "    7. You may include a clause that is not a perfect match if:";
    "    - It serves a similar **legal or operational function**, and";
    "    - You clearly explain how it could be adapted to the contract context.";
    "    8. Do not recommend clauses that clearly mismatch the contract’s type, scope, or parties.";
    "    9. Avoid redundancy. If the contract already addresses a topic (e.g. dispute resolution), only suggest a clause on that topic if it adds clear value.";
    "";
    "    Focus on legal function, contextual fit, and the actual mechanics of the contract. You are recommending **starting points** — plausible clauses the user could adapt."
  ].

Definition selection_rules : string := Py.join nl selection_rules_lines.

(** One turn of the loop over [combined_df.iterrows()]; the index runs
    from 0 because the frames were concatenated with
    [ignore_index=True]. *)
Definition clause_entry (i : nat) (row : CandidateClause) : string :=
  "Clause " +:+ Py.str_of_nat (i + 1) +:+ nl
  +:+ "Name: " +:+ source_name row +:+ nl
  +:+ "Method: " +:+ matched_by row +:+ nl
  +:+ "Full Text:" +:+ nl +:+ text row +:+ nl +:+ nl.

Fixpoint clause_entries (i : nat) (rows : list CandidateClause) : string :=
  match rows with
  | [] => EmptyString
  | row :: rows' => clause_entry i row +:+ clause_entries (S i) rows'
  end.

Definition clause_block (combined_df : list CandidateClause) : string :=
  "Here are the clauses:" +:+ nl +:+ nl
  +:+ clause_entries 0 combined_df +:+ selection_rules.

Definition correction_prompt (missing : list string) : string :=
  "One of the clauses you recommended "
  +:+ "(" +:+ Py.join ", " missing +:+ ") was not in the provided set. "
  +:+ "Do not hallucinate: only pick from the list I gave you, "
  +:+ "and please try again.".

(** ** Frames *)

(** [pd.DataFrame({"text": texts, "source_name": source_names,
    "matched_by": tags})]: the three columns must have one length. *)
Definition DataFrame (texts source_names tags : list string)
  : option (list CandidateClause) :=
  if decide (length texts = length source_names
             /\ length source_names = length tags)
  then Some (zip_with (fun '(t, n) m =>
                         {| text := t; source_name := n; matched_by := m |})
                      (zip texts source_names) tags)
  else None.

(** [df.head(n)]. *)
Definition head {A} (n : nat) (df : list A) : list A := firstn n df.

(** ** The shared state and the handler monad *)

Section Service.

Context {C : Collaborators}.
Variable G : Globals.

(** [embedding_cache] and the log of completion requests. *)
Record State : Type := {
  embedding_cache : gmap string (CacheEntry Embedding);
  completions : list CompletionRequest
}.

Abbreviation Reply := (Response Sources Classification).

(** A step of a handler either goes on with a value ([inl]) or has
    executed [return] ([inr]); both carry the state. *)
Definition M (A : Type) : Type := State -> (A + Reply) * State.

Definition ret {A} (a : A) : M A := fun s => (inl a, s).

Definition bind {A B} (m : M A) (k : A -> M B) : M B :=
  fun s =>
    match m s with
    | (inl a, s') => k a s'
    | (inr r, s') => (inr r, s')
    end.

(** Python's [return r]. *)
Definition Return {A} (r : Reply) : M A := fun s => (inr r, s).

Notation "x <- m ;; k" := (bind m (fun x => k))
  (at level 100, m at next level, right associativity).
Notation "m ;;; k" := (bind m (fun _ => k))
  (at level 100, right associativity).

(** [if c: return r]. *)
Definition return_if (c : bool) (r : Reply) : M unit :=
  if c then Return r else ret tt.

(** [try: x = e / except Exception as e: return h(str(e))]. *)
Definition try_except {A} (e : result A) (h : string -> Reply) : M A :=
  match e with
  | Ok a => ret a
  | Raised msg => Return (h msg)
  end.

(** A frame whose construction raises ends the handler. *)
Definition frame {A} (o : option A) : M A :=
  match o with
  | Some df => ret df
  | None => Return unhandled_ValueError
  end.

(** [client.chat.completions.create(..).choices[0].message.content]:
    the request is recorded and the reply handed back. *)
Definition create (req : CompletionRequest) : M string :=
  fun s =>
    (inl (chat_completions_create req),
     {| embedding_cache := embedding_cache s;
        completions := completions s ++ [req] |}).

(** What the framework sees of a handler started in state [s]. *)
Definition run (m : M Reply) (s : State) : Reply * State :=
  match m s with
  | (inl r, s') => (r, s')
  | (inr r, s') => (r, s')
  end.

(** ** The embedding cache *)

(** Lines 183-186: [embedding_cache[file_hash] = {...}]. *)
Definition cache_store (file_hash : string) (e : CacheEntry Embedding) : M unit :=
  fun s =>
    (inl tt,
     {| embedding_cache := <[file_hash := e]> (embedding_cache s);
        completions := completions s |}).

(** Lines 275-282: on a hit the stored embedding is read and the entry
    deleted; on a miss the text is embedded. *)
Definition cache_take (file_hash query_text : string) : M Embedding :=
  fun s =>
    match embedding_cache s !! file_hash with
    | Some entry =>
        (inl (entry_embedding entry),
         {| embedding_cache := delete file_hash (embedding_cache s);
            completions := completions s |})
    | None => (inl (encode_text query_text), s)
    end.

(** ** Retrieval (lines 284-302) *)

(** The candidate frame for a query: the rows of the assigned cluster
    followed by the first five rows of the bag-of-words matches. *)
Definition candidates (query_embedding : Embedding) (query_text : string)
  : option (list CandidateClause) :=
  let '(subset_docs, subset_names) := perform_cluster query_embedding in
  let bow_results :=
    find_top_similar_bow query_text (docs G) (names G) 0.1%Q 20 in
  let top_docs := Documents bow_results in
  let top_names := Top_Matches bow_results in
  let '(top_names_bow, top_texts_bow) :=
    get_embedding_matches_subset query_embedding top_docs top_names 5 in
  df_cluster ← DataFrame subset_docs subset_names
                 (replicate (length subset_names) "cluster");
  df_bow ← head 5 <$> DataFrame top_texts_bow top_names_bow
                 (replicate (length top_texts_bow) "bow");
  Some (df_cluster ++ df_bow).

(** ** The conversation (lines 304-419) *)

(** Lines 304-315. *)
Definition context_messages (query_text : string) : list Message :=
  let query_text_short := Py.take 1000 query_text in
  [ {| role := "system"; content := system_prompt |};
    {| role := "user"; content := contract_prompt query_text_short |} ].

(** Lines 317-322. *)
Definition context_request (query_text : string) : CompletionRequest :=
  {| model := OPENROUTER_MODEL G;
     messages := context_messages query_text;
     temperature := 0%Q;
     max_tokens := Some 1000%Z |}.

(** [messages] after lines 325 and 366. *)
Definition selection_messages (query_text : string)
    (combined_df : list CandidateClause) : list Message :=
  let assistant_reply_1 := chat_completions_create (context_request query_text) in
  context_messages query_text
  ++ [ {| role := "assistant"; content := assistant_reply_1 |} ]
  ++ [ {| role := "user"; content := clause_block combined_df |} ].

(** Lines 368-372. *)
Definition selection_request (query_text : string)
    (combined_df : list CandidateClause) : CompletionRequest :=
  {| model := OPENROUTER_MODEL G;
     messages := selection_messages query_text combined_df;
     temperature := 0%Q;
     max_tokens := None |}.

(** Lines 384-390: the returned names without a close match. *)
Definition missing_clauses (df_response : list SelectionRow) : list string :=
  filter (fun clause =>
            let target := clause +:+ ".txt" in
            get_close_matches target (names G) 1 0.8%Q = [])
         (Clause_Name <$> df_response).

(** [messages] after lines 395-404. *)
Definition retry_messages (query_text : string)
    (combined_df : list CandidateClause) (missing : list string) : list Message :=
  let response_text :=
    chat_completions_create (selection_request query_text combined_df) in
  selection_messages query_text combined_df
  ++ [ {| role := "assistant"; content := response_text |} ]
  ++ [ {| role := "user"; content := correction_prompt missing |} ].

(** Lines 407-410. *)
Definition retry_request (query_text : string)
    (combined_df : list CandidateClause) (missing : list string)
  : CompletionRequest :=
  {| model := DEFAULT_MODEL;
     messages := retry_messages query_text combined_df missing;
     temperature := 0%Q;
     max_tokens := None |}.

(** Lines 317-419: the confirmation call, the selection call, the
    check of the returned names and the single corrective call.  The
    value is the frame that goes on to the enrichment. *)
Definition select_clauses (query_text : string)
    (combined_df : list CandidateClause) : M (list SelectionRow) :=
  assistant_reply_1 <- create (context_request query_text) ;;
  response_text <- create (selection_request query_text combined_df) ;;
  match parse_response response_text with
  | None => Return (dict_matches [])
  | Some df_response =>
      let missing := missing_clauses df_response in
      if bool_decide (missing = []) then ret df_response
      else
        response_text <- create (retry_request query_text combined_df missing) ;;
        match parse_response response_text with
        | None => Return (dict_matches [])
        | Some df_response => ret df_response
        end
  end.

(** ** The reply (lines 421-436) *)

Definition build_match (row : EnrichedRow Labels) : Match Sources :=
  let clause_name := Py.replace (row_Clause_Name row) ".txt" "" in
  {| name := clause_name;
     child_name := default "" (name_to_child G !! clause_name);
     clause_url := default "" (name_to_url G !! clause_name);
     reason := row_Reasoning row;
     emissions_sources := parse_emissions_sources (combined_labels row) |}.

Definition build_matches (df_response : list (EnrichedRow Labels))
  : list (Match Sources) :=
  build_match <$> df_response.

(** ** The handlers *)

Definition unsupported_extension : Reply :=
  JSONResponse_error
    ("Only " +:+ Py.join ", " allowed_extensions +:+ " files are supported.")
    400.

Definition conversion_failed (e : string) : Reply :=
  JSONResponse_error ("Error converting file to text: " +:+ e) 400.

(** Line 59. *)
Definition temp_dir : string := Py.os_path_join BASE_DIR ["temp_uploads"].

(** Line 132. *)
Definition original_file_path (file : UploadFile) : string :=
  Py.os_path_join temp_dir [filename file].

(** Lines 148-150. *)
Definition txt_file_path (file : UploadFile) : string :=
  let base_filename := Py.splitext_root (filename file) in
  let txt_filename := base_filename +:+ ".txt" in
  Py.os_path_join temp_dir [txt_filename].

(** A file-system operation outside any [try]: its exception ends the
    handler. *)
Definition uncaught {A} (e : result A) : M A :=
  match e with
  | Ok a => ret a
  | Raised msg => Return (unhandled_OSError msg)
  end.

(** [POST /process/] *)
Definition process_contract (file : UploadFile) : M Reply :=
  uncaught recreate_directories ;;;
  return_if (negb (extension_allowed (filename file))) unsupported_extension ;;;
  let file_content := file_bytes file in
  uncaught (write_bytes (original_file_path file) file_content) ;;;
  full_contract_text <-
    try_except (convert_file_to_text file_content (filename file))
               conversion_failed ;;
  uncaught (write_text (txt_file_path file) full_contract_text) ;;;
  let file_hash := md5_hexdigest file_content in
  let full_contract_embedding := encode_text full_contract_text in
  cache_store file_hash
    {| entry_embedding := full_contract_embedding;
       entry_text := full_contract_text |} ;;;
  ret (JSONResponse_classification (classify_and_render file full_contract_text)).

(** [POST /find_clauses/] *)
Definition find_clauses (file : UploadFile) : M Reply :=
  return_if (negb (extension_allowed (filename file))) unsupported_extension ;;;
  let content := file_bytes file in
  query_text <-
    try_except (convert_file_to_text content (filename file))
               conversion_failed ;;
  let file_hash := md5_hexdigest content in
  query_embedding <- cache_take file_hash query_text ;;
  combined_df <- frame (candidates query_embedding query_text) ;;
  df_response <- select_clauses query_text combined_df ;;
  let df_response := get_emission_label df_response in
  ret (dict_matches (build_matches df_response)).

End Service.

Arguments State {C}.
Arguments embedding_cache {C} _.
Arguments completions {C} _.

(** ** The lexical matcher, from its description *)

(** Descending insertion by score. *)
Fixpoint insert_by_score {A} (x : Q * A) (l : list (Q * A)) : list (Q * A) :=
  match l with
  | [] => [x]
  | y :: l' =>
      if Qle_bool (fst y) (fst x) then x :: y :: l'
      else y :: insert_by_score x l'
  end.

Definition sort_by_score {A} (l : list (Q * A)) : list (Q * A) :=
  foldr insert_by_score [] l.

(** Modelled from the spec: [utils.find_top_similar_bow] is missing from
    the sources.  Section 4.2, step 2: "compute a bag-of-words
    similarity [...] between the query text and every corpus document;
    keep only those exceeding a similarity threshold (policy value:
    0.1), then sort and keep the top-k (policy value: k=20) to form a
    first-stage candidate pool".  The similarity itself is the
    parameter [similarity]. *)
Definition spec_find_top_similar_bow (similarity : string -> string -> Q)
    (target_doc : string) (documents file_names : list string)
    (similarity_threshold : Q) (k : nat) : BowResults :=
  let scored :=
    (fun '(n, d) => (similarity target_doc d, (n, d)))
      <$> zip file_names documents in
  let kept :=
    List.filter (fun x => negb (Qle_bool (fst x) similarity_threshold)) scored in
  let pool := firstn k (sort_by_score kept) in
  {| Documents := (fun x => snd (snd x)) <$> pool;
     Top_Matches := (fun x => fst (snd x)) <$> pool |}.

(** Modelled from the spec: [utils.get_embedding_matches_subset] is
    missing from the sources.  Section 4.2, step 2: "re-embed that pool
    against the query embedding and keep the top-m (policy value: m=5)
    by embedding similarity as the final [matched_by=bow] set".  The
    value is the pair (names, texts) the handler keeps. *)
Definition spec_get_embedding_matches_subset {E : Type}
    (encode : string -> E) (embedding_similarity : E -> E -> Q)
    (query_embedding : E) (top_docs top_names : list string) (k : nat)
  : list string * list string :=
  let scored :=
    (fun '(n, d) => (embedding_similarity query_embedding (encode d), (n, d)))
      <$> zip top_names top_docs in
  let top := firstn k (sort_by_score scored) in
  ((fun x => fst (snd x)) <$> top, (fun x => snd (snd x)) <$> top).

(** ** Proof support: the states a handler passes through *)

(** The frame parsed from the reply to the selection request. *)
Definition first_frame {C : Collaborators} (G : Globals) (query_text : string)
    (combined_df : list CandidateClause) : option (list SelectionRow) :=
  parse_response
    (chat_completions_create (selection_request G query_text combined_df)).

(** The frame parsed from the reply to the corrective request. *)
Definition retry_frame {C : Collaborators} (G : Globals) (query_text : string)
    (combined_df : list CandidateClause) (missing : list string)
  : option (list SelectionRow) :=
  parse_response
    (chat_completions_create (retry_request G query_text combined_df missing)).


(** [s] with the requests [reqs] appended to its log. *)
Definition logged {C : Collaborators} (s : State) (reqs : list CompletionRequest)
  : State :=
  {| embedding_cache := embedding_cache s;
     completions := completions s ++ reqs |}.

(** The embedding lines 275-282 bind to [query_embedding] in state [s]. *)
Definition query_embedding_in {C : Collaborators} (s : State)
    (file_hash query_text : string) : Embedding :=
  match embedding_cache s !! file_hash with
  | Some entry => entry_embedding entry
  | None => encode_text query_text
  end.

(** The state after lines 275-282. *)
Definition taken {C : Collaborators} (s : State) (file_hash : string) : State :=
  match embedding_cache s !! file_hash with
  | Some _ =>
      {| embedding_cache := delete file_hash (embedding_cache s);
         completions := completions s |}
  | None => s
  end.

(** The ways a request to [find_clauses] ends once the extension gate
    and the conversion are passed, with the reply and the state each
    leaves.  [h] is the digest of the upload, [qt] its text and [s] the
    state at entry. *)
Inductive outcome {C : Collaborators} (G : Globals) (s : State) (h qt : string)
  : Response Sources Classification -> State -> Prop :=
| frame_refused :
    candidates G (query_embedding_in s h qt) qt = None ->
    outcome G s h qt unhandled_ValueError (taken s h)
| first_unparsed df :
    candidates G (query_embedding_in s h qt) qt = Some df ->
    first_frame G qt df = None ->
    outcome G s h qt (dict_matches [])
      (logged (taken s h) [context_request G qt; selection_request G qt df])
| first_accepted df d1 :
    candidates G (query_embedding_in s h qt) qt = Some df ->
    first_frame G qt df = Some d1 ->
    missing_clauses G d1 = [] ->
    outcome G s h qt
      (dict_matches (build_matches G (get_emission_label d1)))
      (logged (taken s h) [context_request G qt; selection_request G qt df])
| retry_unparsed df d1 :
    candidates G (query_embedding_in s h qt) qt = Some df ->
    first_frame G qt df = Some d1 ->
    missing_clauses G d1 <> [] ->
    retry_frame G qt df (missing_clauses G d1) = None ->
    outcome G s h qt (dict_matches [])
      (logged (taken s h)
         [context_request G qt; selection_request G qt df;
          retry_request G qt df (missing_clauses G d1)])
| retry_accepted df d1 d2 :
    candidates G (query_embedding_in s h qt) qt = Some df ->
    first_frame G qt df = Some d1 ->
    missing_clauses G d1 <> [] ->
    retry_frame G qt df (missing_clauses G d1) = Some d2 ->
    outcome G s h qt
      (dict_matches (build_matches G (get_emission_label d2)))
      (logged (taken s h)
         [context_request G qt; selection_request G qt df;
          retry_request G qt df (missing_clauses G d1)]).

(** Case-insensitive ending, written without [Py.lower], after the
    words of the property: a character of an extension is matched by
    itself and, if it is a lower-case letter, by its upper-case form. *)
Definition same_letter (p c : ascii) : bool :=
  Ascii.eqb p c
  || ((97 <=? nat_of_ascii p)%nat && (nat_of_ascii p <=? 122)%nat
      && (nat_of_ascii c + 32 =? nat_of_ascii p)%nat).

Fixpoint case_variant (ext tail : string) : bool :=
  match ext, tail with
  | EmptyString, EmptyString => true
  | String p ext', String c tail' => same_letter p c && case_variant ext' tail'
  | _, _ => false
  end.

Definition ends_with_variant_of (ext fname : string) : Prop :=
  exists stem tail, fname = stem +:+ tail /\ case_variant ext tail = true.

(** No character of [s] is an upper-case letter. *)
Fixpoint no_upper (s : string) : bool :=
  match s with
  | EmptyString => true
  | String c s' =>
      negb ((65 <=? nat_of_ascii c)%nat && (nat_of_ascii c <=? 90)%nat)
      && no_upper s'
  end.

(** A string ends with [ext]. *)
Definition has_suffix (ext s : string) : Prop := exists p, s = p +:+ ext.

(** The names of a reply. *)
Definition match_names {S K : Type} (r : Response S K) : list string :=
  match r with
  | dict_matches ms => name <$> ms
  | _ => []
  end.

(** ** A small deployment

    A three-clause corpus and simple collaborators, used to run the
    handlers on concrete uploads. *)
Module Demo.

Fixpoint common_prefix (a b : string) : nat :=
  match a, b with
  | String x a', String y b' =>
      if ascii_dec x y then S (common_prefix a' b') else O
  | _, _ => O
  end.

Definition similarity (t d : string) : Q :=
  Z.of_nat (common_prefix t d) # 20.

Definition embedding_similarity (a b : nat) : Q :=
  1 # Pos.of_nat (S (Nat.max a b - Nat.min a b)).

Definition parse (s : string) : option (list SelectionRow) :=
  if Py.startswith s "[" then
    Some [ {| Clause_Name := Py.drop 1 s; Reasoning := "fits" |} ]
  else None.

(** A similarity that counts only the common prefix, a lower bound of
    a block-matching ratio: twice the shared length over the total. *)
Definition prefix_ratio (a b : string) : Q :=
  Z.of_nat (2 * common_prefix a b)
  # Pos.of_nat (String.length a + String.length b).

Definition prefix_matches (target : string) (possibilities : list string)
    (n : nat) (cutoff : Q) : list string :=
  firstn n (List.filter (fun p => Qle_bool cutoff (prefix_ratio target p))
                        possibilities).

(** Opening a path for writing succeeds when it names a file directly
    under the freshly emptied "/srv/app/temp_uploads". *)
Fixpoint has_slash (s : string) : bool :=
  match s with
  | EmptyString => false
  | String c s' => if ascii_dec c "/" then true else has_slash s'
  end.

Definition open_in_temp_dir (path : string) : result unit :=
  if Py.startswith path "/srv/app/temp_uploads/"
     && negb (has_slash (Py.drop 22 path))
  then Ok tt
  else Raised "[Errno 2] No such file or directory".

(** The digest is the byte count in decimal, the embedding the length
    of the text. *)
Definition collaborators (llm : CompletionRequest -> string) : Collaborators :=
  {| Embedding := nat;
     Labels := string;
     Sources := list string;
     Classification := string;
     md5_hexdigest := fun b => pretty (length b);
     convert_file_to_text := fun b _ =>
       match b with
       | [] => Raised "empty document"
       | _ => Ok (string_of_list_byte b)
       end;
     encode_text := String.length;
     perform_cluster := fun _ =>
       (["The supplier shall report emissions."],
        ["Net Zero Supply Chain Obligations.txt"]);
     find_top_similar_bow := spec_find_top_similar_bow similarity;
     get_embedding_matches_subset :=
       spec_get_embedding_matches_subset String.length embedding_similarity;
     parse_response := parse;
     get_close_matches := prefix_matches;
     get_emission_label := fun df =>
       (fun r => {| row_Clause_Name := Clause_Name r;
                    row_Reasoning := Reasoning r;
                    combined_labels := None |}) <$> df;
     parse_emissions_sources := fun o =>
       match o with Some l => [l] | None => [] end;
     chat_completions_create := llm;
     classify_and_render := fun _ _ => "unlikely";
     BASE_DIR := "/srv/app";
     recreate_directories := Ok tt;
     write_bytes := fun path _ => open_in_temp_dir path;
     write_text := fun path _ => open_in_temp_dir path |}.

Definition globals (env : option string) : Globals :=
  {| names := ["Green Lease.txt"; "Net Zero Supply Chain Obligations.txt";
               "Carbon Audit.txt"];
     docs := ["The tenant shall reduce energy use.";
              "The supplier shall report emissions.";
              "Annual carbon audit by the buyer."];
     name_to_child := {[ "Green Lease" := "Green Lease Lite" ]};
     name_to_url := {[ "Green Lease" := "/clauses/green-lease" ]};
     getenv_OPENROUTER_MODEL := env |}.

Definition upload : UploadFile :=
  {| filename := "Supply.TXT";
     file_bytes := list_byte_of_string "The supplier shall deliver goods." |}.

(** A completion service that answers by the length of the
    conversation: the confirmation, then [first], then [second]. *)
Definition scripted (first second : string) (req : CompletionRequest) : string :=
  match length (messages req) with
  | 2 => "Ready."
  | 4 => first
  | _ => second
  end.

(** The service selects a clause of the corpus. *)
Definition faithful := scripted "[Green Lease" "".

(** The service drops the last letter of a clause name. *)
Definition near_miss := scripted "[Net Zero Supply Chain Obligation" "".

(** The service invents a clause, twice. *)
Definition inventive := scripted "[Carbon Unicorn" "[Carbon Unicorn".

(** The first answer is not a list. *)
Definition garbled := scripted "I cannot answer." "".

(** The answer to the correction is not a list. *)
Definition garbled_retry := scripted "[Carbon Unicorn" "Sorry.".

Definition start {C : Collaborators} : State :=
  {| embedding_cache := ∅; completions := [] |}.

(** The text of [upload] and the candidate frame retrieval builds for
    it. *)
Definition query_text : string := "The supplier shall deliver goods.".

Definition frame : list CandidateClause :=
  [ {| text := "The supplier shall report emissions.";
       source_name := "Net Zero Supply Chain Obligations.txt";
       matched_by := "cluster" |};
    {| text := "The tenant shall reduce energy use.";
       source_name := "Green Lease.txt";
       matched_by := "bow" |};
    {| text := "The supplier shall report emissions.";
       source_name := "Net Zero Supply Chain Obligations.txt";
       matched_by := "bow" |} ].

End Demo.

(** Every name of a reply, with the suffix put back, is an element of
    the loaded list of names. *)
Definition names_are_index_keys {S K : Type} (G : Globals) (r : Response S K)
  : Prop :=
  forall n, n ∈ match_names r -> (n +:+ ".txt") ∈ names G.

(** ** The frontend pages (lines 41-55 and 438-456) *)

Module Frontend.

Definition USERNAME : string := "father".
Definition PASSWORD : string := "christmas".
Definition HTTP_401_UNAUTHORIZED : Z := 401.

Record HTTPBasicCredentials : Type := {
  username : string;
  password : string
}.

Record HTTPException : Type := {
  status_code : Z;
  detail : string;
  headers : list (string * string)
}.

(** What a page route ends in: the file response, the exception of the
    credential check, or the [RuntimeError] of a missing file. *)
Inductive Page : Type :=
| FileResponse (path : string) (media_type : string)
| Refused (e : HTTPException)
| RuntimeError (msg : string).

(** [verify_credentials]: [None] when the function returns, the
    exception when it raises. *)
Definition verify_credentials (credentials : HTTPBasicCredentials)
  : option HTTPException :=
  let correct_username := String.eqb (username credentials) USERNAME in
  let correct_password := String.eqb (password credentials) PASSWORD in
  if negb (correct_username && correct_password) then
    Some {| status_code := HTTP_401_UNAUTHORIZED;
            detail := "Incorrect username or password";
            headers := [("WWW-Authenticate", "Basic")] |}
  else None.

(** [os.path.join] of the POSIX flavour. *)
Definition os_path_join (a : string) (p : list string) : string :=
  fold_left
    (fun path b =>
       if Py.startswith b "/" then b
       else if String.eqb path "" || Py.endswith path "/" then path +:+ b
       else path +:+ "/" +:+ b)
    p a.

Section Pages.

(** [BASE_DIR] and [os.path.exists]. *)
Variable BASE_DIR : string.
Variable os_path_exists : string -> bool.

Definition INDEX_PATH : string :=
  os_path_join BASE_DIR ["provocotype-1"; "index.htm"].

(** A route whose dependency is [verify_credentials]: the dependency
    runs first and its exception ends the request. *)
Definition guarded (credentials : HTTPBasicCredentials) (body : Page) : Page :=
  match verify_credentials credentials with
  | Some e => Refused e
  | None => body
  end.

(** [GET /] *)
Definition read_root (credentials : HTTPBasicCredentials) : Page :=
  guarded credentials
    (if negb (os_path_exists INDEX_PATH)
     then RuntimeError (INDEX_PATH +:+ " not found")
     else FileResponse INDEX_PATH "text/html").



End Pages.

End Frontend.

(** ** The rendering step of [process_contract] (lines 154-212) *)

Module Rendering.

(** What the handler inspects of the value of [md.convert]: for each of
    the two attributes whether it exists and, if so, its value ([None]
    for Python's [None]), and [str(result)]. *)
Record ConvertResult : Type := {
  attr_text_content : option (option string);
  attr_markdown : option (option string);
  str_result : string
}.

(** A row of [result_df], in the columns the handler reads. *)
Record ResultRow : Type := {
  sentence : string;
  prediction : Z;
  contains_climate_keyword : bool
}.

(** Truth value of a string, and of a string or [None]. *)
Definition truthy_str (s : string) : bool := negb (String.eqb s "").

Definition truthy (o : option string) : bool :=
  match o with
  | Some s => truthy_str s
  | None => false
  end.

(** [str(x)] of a string or [None]. *)
Definition str (o : option string) : string :=
  match o with
  | Some s => s
  | None => "None"
  end.

(** Lines 155-178.  [conv] is the outcome of the import and of
    [md.convert]: an exception, a false value ([Ok None]) or an
    object. *)
Definition markdown_content_of (conv : result (option ConvertResult))
  : option string :=
  match conv with
  | Raised _ => None
  | Ok result =>
      let markdown_content :=
        match result with
        | None => None
        | Some r =>
            match attr_text_content r with
            | Some v => v
            | None =>
                match attr_markdown r with
                | Some v => v
                | None =>
                    let markdown_content := str_result r in
                    if String.eqb markdown_content "None"
                       || negb (truthy_str (Py.strip markdown_content))
                    then None
                    else Some markdown_content
                end
            end
        end in
      if negb (truthy markdown_content)
         || String.eqb (Py.strip (str markdown_content)) ""
      then None
      else markdown_content
  end.

(** Lines 196-198: the sentences the classifier or the keyword list
    flagged. *)
Definition highlighted_sentences_of (result_df : list ResultRow) : list string :=
  sentence <$>
    filter (fun r => prediction r = 1%Z \/ contains_climate_keyword r = true)
           result_df.

Section Render.

(** [utils.render_markdown_with_highlights] and
    [utils.highlight_climate_content]. *)
Variable render_markdown_with_highlights :
  string -> string -> list string -> result string.
Variable highlight_climate_content : list ResultRow -> string.

(** Lines 200-212. *)
Definition highlighted_output_of (markdown_content : option string)
    (full_contract_text : string) (result_df : list ResultRow) : string :=
  let highlighted_sentences := highlighted_sentences_of result_df in
  if truthy markdown_content && truthy_str (Py.strip (str markdown_content))
  then
    match render_markdown_with_highlights (str markdown_content)
            full_contract_text highlighted_sentences with
    | Ok out => out
    | Raised _ => highlight_climate_content result_df
    end
  else highlight_climate_content result_df.

(** Lines 155-212 together. *)
Definition render_document (conv : result (option ConvertResult))
    (full_contract_text : string) (result_df : list ResultRow) : string :=
  highlighted_output_of (markdown_content_of conv) full_contract_text result_df.

End Render.

End Rendering.

(** ** Requests one after the other

    Neither handler awaits anything after [await file.read()], so the
    effects of one request on the shared state are not interleaved with
    those of another: a run of the service is a sequence of calls. *)

Inductive Call : Type :=
| Process (file : UploadFile)
| Find (file : UploadFile).


Definition handle {C : Collaborators} (G : Globals) (c : Call) (s : State)
  : Response Sources Classification * State :=
  match c with
  | Process file => run (process_contract file) s
  | Find file => run (find_clauses G file) s
  end.

Fixpoint serve {C : Collaborators} (G : Globals) (calls : list Call) (s : State)
  : State :=
  match calls with
  | [] => s
  | c :: calls' => serve G calls' (snd (handle G c s))
  end.

(** The roles of the messages of a request, in order. *)
Definition roles_of (req : CompletionRequest) : list string :=
  role <$> messages req.


Fixpoint count_find (calls : list Call) : nat :=
  match calls with
  | [] => 0
  | Process _ :: calls' => count_find calls'
  | Find _ :: calls' => S (count_find calls')
  end.

(** ** Proof support for the string functions *)

(** [old] occurs in [s]. *)
Definition occurs (old s : string) : Prop :=
  exists p q, s = p +:+ old +:+ q.

(** Whether [old] occurs in [s], by trying every position. *)
Fixpoint occursb (old s : string) : bool :=
  Py.startswith s old
  || match s with
     | EmptyString => false
     | String _ s' => occursb old s'
     end.

(** The white space of the ASCII range as Python's [str.isspace] has
    it, by character code: tab, line feed, vertical tab, form feed,
    carriage return, the separators 28 to 31 and the space. *)
Definition python_space (c : ascii) : Prop :=
  nat_of_ascii c ∈ [9; 10; 11; 12; 13; 28; 29; 30; 31; 32]%nat.

(** Every character of [s] is in the ASCII range, where a character of
    the model is a character of the Python string. *)
Fixpoint ascii_only (s : string) : bool :=
  match s with
  | EmptyString => true
  | String c s' => (nat_of_ascii c <? 128)%nat && ascii_only s'
  end.

(** Every character of [s] is white space. *)
Fixpoint all_space (s : string) : bool :=
  match s with
  | EmptyString => true
  | String c s' => Py.isspace c && all_space s'
  end.

(** The last character of a string. *)
Fixpoint last_char (s : string) : option ascii :=
  match s with
  | EmptyString => None
  | String c EmptyString => Some c
  | String _ s' => last_char s'
  end.

(** ** A deployment whose cluster columns differ in length *)
Module Uneven.

Definition collaborators : Collaborators :=
  {| Embedding := nat;
     Labels := string;
     Sources := list string;
     Classification := string;
     md5_hexdigest := fun b => pretty (length b);
     convert_file_to_text := fun b _ => Ok (string_of_list_byte b);
     encode_text := String.length;
     perform_cluster := fun _ => (["one"; "two"], ["One.txt"]);
     find_top_similar_bow := fun _ _ _ _ _ =>
       {| Documents := []; Top_Matches := [] |};
     get_embedding_matches_subset := fun _ _ _ _ => ([], []);
     parse_response := fun _ => None;
     get_close_matches := fun _ _ _ _ => [];
     get_emission_label := fun _ => [];
     parse_emissions_sources := fun _ => [];
     chat_completions_create := fun _ => "";
     classify_and_render := fun _ _ => "unlikely";
     BASE_DIR := "/srv/app";
     recreate_directories := Ok tt;
     write_bytes := fun path _ => Demo.open_in_temp_dir path;
     write_text := fun path _ => Demo.open_in_temp_dir path |}.

End Uneven.

(** ** A deployment whose conversion depends on the file name *)
Module ByName.

Definition convert (b : list byte) (fname : string) : result string :=
  if Py.endswith (Py.lower fname) ".md"
  then Ok ("# " +:+ string_of_list_byte b)
  else Ok (string_of_list_byte b).

Definition collaborators : Collaborators :=
  {| Embedding := nat;
     Labels := string;
     Sources := list string;
     Classification := string;
     md5_hexdigest := fun b => pretty (length b);
     convert_file_to_text := convert;
     encode_text := String.length;
     perform_cluster := fun e =>
       ([pretty e], ["Green Lease.txt"]);
     find_top_similar_bow := spec_find_top_similar_bow Demo.similarity;
     get_embedding_matches_subset :=
       spec_get_embedding_matches_subset String.length
         Demo.embedding_similarity;
     parse_response := Demo.parse;
     get_close_matches := Demo.prefix_matches;
     get_emission_label := fun df =>
       (fun r => {| row_Clause_Name := Clause_Name r;
                    row_Reasoning := Reasoning r;
                    combined_labels := None |}) <$> df;
     parse_emissions_sources := fun o =>
       match o with Some l => [l] | None => [] end;
     chat_completions_create := Demo.faithful;
     classify_and_render := fun _ _ => "unlikely";
     BASE_DIR := "/srv/app";
     recreate_directories := Ok tt;
     write_bytes := fun path _ => Demo.open_in_temp_dir path;
     write_text := fun path _ => Demo.open_in_temp_dir path |}.

Definition as_text : UploadFile :=
  {| filename := "Supply.txt";
     file_bytes := list_byte_of_string "The supplier shall deliver goods." |}.

Definition as_markdown : UploadFile :=
  {| filename := "Supply.md";
     file_bytes := list_byte_of_string "The supplier shall deliver goods." |}.

End ByName.

(** * Properties *)

(** ** Strings *)

Section StringFacts.

Lemma app_cons (c : ascii) (a b : string) :
  String c a +:+ b = String c (a +:+ b).
Proof. reflexivity. Qed.

Lemma app_nil (b : string) : EmptyString +:+ b = b.
Proof. reflexivity. Qed.

Lemma length_append (a b : string) :
  String.length (a +:+ b) = String.length a + String.length b.
Proof.
  induction a as [|c a IH]; [reflexivity|].
  rewrite app_cons. simpl. now rewrite IH.
Qed.

Lemma drop_app (p e : string) : Py.drop (String.length p) (p +:+ e) = e.
Proof.
  induction p as [|c p IH]; [now destruct e|].
  rewrite app_cons. simpl. exact IH.
Qed.

Lemma take_drop (n : nat) (s : string) : Py.take n s +:+ Py.drop n s = s.
Proof.
  revert s; induction n as [|n IH]; intros [|c s]; simpl; try reflexivity.
  rewrite app_cons. f_equal. apply IH.
Qed.

Lemma length_drop (n : nat) (s : string) :
  String.length (Py.drop n s) = String.length s - n.
Proof.
  revert s; induction n as [|n IH]; intros [|c s]; simpl; auto with arith.
Qed.

Lemma lower_app (a b : string) : Py.lower (a +:+ b) = Py.lower a +:+ Py.lower b.
Proof.
  induction a as [|c a IH]; [reflexivity|].
  rewrite app_cons. simpl. now rewrite IH, app_cons.
Qed.

(** [endswith] decides [has_suffix]. *)
Lemma endswith_spec (s ext : string) :
  Py.endswith s ext = true <-> has_suffix ext s.
Proof.
  unfold Py.endswith, has_suffix. rewrite andb_true_iff, Nat.leb_le, String.eqb_eq.
  split.
  - intros [_ Hd]. exists (Py.take (String.length s - String.length ext) s).
    rewrite <- Hd at 2. symmetry. apply take_drop.
  - intros [p ->]. rewrite length_append. split; [lia|].
    replace (String.length p + String.length ext - String.length ext)
      with (String.length p) by lia.
    apply drop_app.
Qed.

(** The gate as a statement about the lower-cased name. *)
Lemma extension_allowed_spec (fname : string) :
  extension_allowed fname = true <->
  exists ext, ext ∈ allowed_extensions /\ has_suffix ext (Py.lower fname).
Proof.
  unfold extension_allowed, Py.any. rewrite existsb_exists. split.
  - intros (ext & Hin & He). exists ext. split.
    + now apply list_elem_of_In.
    + now apply endswith_spec.
  - intros (ext & Hin & He). exists ext. split.
    + now apply list_elem_of_In.
    + now apply endswith_spec.
Qed.

End StringFacts.

(** ** The handlers, step by step *)

Section HandlerFacts.

Context {C : Collaborators}.
Variable G : Globals.

Lemma logged_nil (s : State) : logged s [] = s.
Proof. destruct s; unfold logged; simpl. now rewrite app_nil_r. Qed.

Lemma cache_take_eq (h qt : string) (s : State) :
  cache_take h qt s = (inl (query_embedding_in s h qt), taken s h).
Proof.
  unfold cache_take, query_embedding_in, taken.
  now destruct (embedding_cache s !! h).
Qed.

Lemma completions_taken (s : State) (h : string) :
  completions (taken s h) = completions s.
Proof. unfold taken. now destruct (embedding_cache s !! h). Qed.

Lemma cache_taken (s : State) (h : string) :
  embedding_cache (taken s h) = delete h (embedding_cache s).
Proof.
  unfold taken. destruct (embedding_cache s !! h) eqn:E; [reflexivity|].
  symmetry. now apply delete_id.
Qed.

(** The conversation, as a case analysis on the two parsed replies. *)
Lemma select_clauses_eq (qt : string) (df : list CandidateClause) (s : State) :
  select_clauses G qt df s =
  let ctx := context_request G qt in
  let sel := selection_request G qt df in
  match first_frame G qt df with
  | None => (inr (dict_matches []), logged s [ctx; sel])
  | Some d1 =>
      if bool_decide (missing_clauses G d1 = [])
      then (inl d1, logged s [ctx; sel])
      else
        let retry := retry_request G qt df (missing_clauses G d1) in
        match retry_frame G qt df (missing_clauses G d1) with
        | None => (inr (dict_matches []), logged s [ctx; sel; retry])
        | Some d2 => (inl d2, logged s [ctx; sel; retry])
        end
  end.
Proof.
  unfold select_clauses, first_frame, retry_frame, bind, create, Return, ret, logged.
  cbn [embedding_cache completions].
  destruct (parse_response _) as [d1|]; [|now rewrite <- app_assoc].
  destruct (bool_decide _); [now rewrite <- app_assoc|].
  cbn [embedding_cache completions].
  destruct (parse_response _); now rewrite <- !app_assoc.
Qed.

Lemma find_clauses_rejected (file : UploadFile) (s : State) :
  extension_allowed (filename file) = false ->
  find_clauses G file s = (inr unsupported_extension, s).
Proof. intros H. unfold find_clauses, bind, return_if. now rewrite H. Qed.

Lemma find_clauses_unconverted (file : UploadFile) (s : State) (e : string) :
  extension_allowed (filename file) = true ->
  convert_file_to_text (file_bytes file) (filename file) = Raised e ->
  find_clauses G file s = (inr (conversion_failed e), s).
Proof.
  intros H He. unfold find_clauses, bind, return_if, try_except.
  now rewrite H, He.
Qed.

Lemma find_clauses_accepted (file : UploadFile) (s : State) (qt : string) :
  extension_allowed (filename file) = true ->
  convert_file_to_text (file_bytes file) (filename file) = Ok qt ->
  find_clauses G file s =
  let h := md5_hexdigest (file_bytes file) in
  match candidates G (query_embedding_in s h qt) qt with
  | None => (inr unhandled_ValueError, taken s h)
  | Some df =>
      match select_clauses G qt df (taken s h) with
      | (inl d, s') =>
          (inl (dict_matches (build_matches G (get_emission_label d))), s')
      | (inr r, s') => (inr r, s')
      end
  end.
Proof.
  intros H Hq. unfold find_clauses, bind, return_if, try_except, frame.
  rewrite H, Hq. cbn [negb ret]. rewrite cache_take_eq.
  destruct (candidates _ _ _) as [df|]; [|reflexivity].
  cbn [ret]. now destruct (select_clauses _ _ _ _) as [[d|r] s'].
Qed.

(** [process_contract], step by step. *)
Lemma process_contract_cases (file : UploadFile) (s : State) :
  process_contract file s =
  match recreate_directories with
  | Raised m => (inr (unhandled_OSError m), s)
  | Ok _ =>
      if extension_allowed (filename file) then
        match write_bytes (original_file_path file) (file_bytes file) with
        | Raised m => (inr (unhandled_OSError m), s)
        | Ok _ =>
            match convert_file_to_text (file_bytes file) (filename file) with
            | Raised e => (inr (conversion_failed e), s)
            | Ok t =>
                match write_text (txt_file_path file) t with
                | Raised m => (inr (unhandled_OSError m), s)
                | Ok _ =>
                    (inl (JSONResponse_classification
                            (classify_and_render file t)),
                     {| embedding_cache :=
                          <[md5_hexdigest (file_bytes file) :=
                              {| entry_embedding := encode_text t;
                                 entry_text := t |}]>
                            (embedding_cache s);
                        completions := completions s |})
                end
            end
        end
      else (inr unsupported_extension, s)
  end.
Proof.
  unfold process_contract, bind, uncaught, return_if, try_except, cache_store.
  destruct recreate_directories; [|reflexivity]. cbn [ret].
  destruct (extension_allowed (filename file)); [|reflexivity]. cbn [negb ret].
  destruct (write_bytes _ _); [|reflexivity]. cbn [ret].
  destruct (convert_file_to_text _ _) as [t|e]; [|reflexivity]. cbn [ret].
  now destruct (write_text _ _).
Qed.



Lemma process_contract_accepted (file : UploadFile) (s : State) (t : string) :
  recreate_directories = Ok tt ->
  extension_allowed (filename file) = true ->
  write_bytes (original_file_path file) (file_bytes file) = Ok tt ->
  convert_file_to_text (file_bytes file) (filename file) = Ok t ->
  write_text (txt_file_path file) t = Ok tt ->
  process_contract file s =
  (inl (JSONResponse_classification (classify_and_render file t)),
   {| embedding_cache :=
        <[md5_hexdigest (file_bytes file) :=
            {| entry_embedding := encode_text t; entry_text := t |}]>
          (embedding_cache s);
      completions := completions s |}).
Proof.
  intros Hd H Hw Ht Hw'.
  now rewrite process_contract_cases, Hd, H, Hw, Ht, Hw'.
Qed.

(** Every accepted request ends in one of the listed ways. *)
Lemma find_clauses_outcome (file : UploadFile) (s : State) (qt : string) :
  extension_allowed (filename file) = true ->
  convert_file_to_text (file_bytes file) (filename file) = Ok qt ->
  outcome G s (md5_hexdigest (file_bytes file)) qt
    (fst (run (find_clauses G file) s)) (snd (run (find_clauses G file) s)).
Proof.
  intros H Hq. unfold run. rewrite (find_clauses_accepted file s qt H Hq).
  cbv zeta.
  destruct (candidates _ _ _) as [df|] eqn:Hdf; [|now constructor].
  rewrite select_clauses_eq. cbv zeta.
  destruct (first_frame G qt df) as [d1|] eqn:H1;
    [|now apply first_unparsed].
  case_bool_decide as Hm; [now apply first_accepted|].
  destruct (retry_frame _ _ _ _) as [d2|] eqn:H2.
  - now apply (retry_accepted G s _ qt df d1 d2).
  - now apply (retry_unparsed G s _ qt df d1).
Qed.

(** A request stopped at the gate or in the conversion leaves the state
    as it was. *)
Lemma find_clauses_stopped (file : UploadFile) (s : State) :
  extension_allowed (filename file) = false
  \/ (exists e, convert_file_to_text (file_bytes file) (filename file) = Raised e) ->
  snd (run (find_clauses G file) s) = s.
Proof.
  intros [H|[e He]]; unfold run.
  - now rewrite find_clauses_rejected.
  - destruct (extension_allowed (filename file)) eqn:H.
    + now rewrite (find_clauses_unconverted file s e).
    + now rewrite find_clauses_rejected.
Qed.

End HandlerFacts.

(** ** The conversation with the completion service *)

Lemma completions_logged {C : Collaborators} (s : State) (l : list CompletionRequest) :
  completions (logged s l) = completions s ++ l.
Proof. reflexivity. Qed.

Lemma completions_logged_taken {C : Collaborators} (s : State) (h : string)
    (l : list CompletionRequest) :
  completions (logged (taken s h) l) = completions s ++ l.
Proof. now rewrite completions_logged, completions_taken. Qed.

(** The requests a run of [find_clauses] adds to the log. *)
Lemma find_clauses_log {C : Collaborators} (G : Globals) (file : UploadFile)
    (s : State) :
  exists new,
    completions (snd (run (find_clauses G file) s)) = completions s ++ new
    /\ (new = []
        \/ exists qt df,
             new = [context_request G qt; selection_request G qt df]
             \/ exists missing,
                  missing <> []
                  /\ new = [context_request G qt; selection_request G qt df;
                            retry_request G qt df missing]).
Proof.
  destruct (extension_allowed (filename file)) eqn:Hx.
  2:{ exists []. rewrite find_clauses_stopped by auto.
      rewrite app_nil_r. auto. }
  destruct (convert_file_to_text (file_bytes file) (filename file))
    as [qt|e] eqn:Hc.
  2:{ exists []. rewrite find_clauses_stopped by eauto.
      rewrite app_nil_r. auto. }
  destruct (find_clauses_outcome G file s qt Hx Hc)
    as [Hd | df Hd H1 | df d1 Hd H1 Hm | df d1 Hd H1 Hm H2 | df d1 d2 Hd H1 Hm H2].
  - exists []. rewrite completions_taken, app_nil_r. auto.
  - eexists. rewrite completions_logged_taken. split; [reflexivity|].
    right. exists qt, df. now left.
  - eexists. rewrite completions_logged_taken. split; [reflexivity|].
    right. exists qt, df. now left.
  - eexists. rewrite completions_logged_taken. split; [reflexivity|].
    right. exists qt, df. right. now exists (missing_clauses G d1).
  - eexists. rewrite completions_logged_taken. split; [reflexivity|].
    right. exists qt, df. right. now exists (missing_clauses G d1).
Qed.

(** C2. Whatever the upload, the state and the replies of the
    completion service, one request to [find_clauses] places at most
    three completion calls: none when the upload is turned away or a
    frame cannot be built, otherwise the context confirmation and the
    selection, followed by at most one corrective retry.  No run adds a
    fourth call. *)
Theorem at_most_three_completion_calls {C : Collaborators} (G : Globals)
    (file : UploadFile) (s : State) :
  exists new,
    completions (snd (run (find_clauses G file) s)) = completions s ++ new
    /\ (length new <= 3)%nat
    /\ (new = []
        \/ exists qt df,
             new = [context_request G qt; selection_request G qt df]
             \/ exists missing,
                  new = [context_request G qt; selection_request G qt df;
                         retry_request G qt df missing]).
Proof.
  destruct (find_clauses_log G file s) as (new & Hlog & Hnew).
  exists new. split; [exact Hlog|].
  destruct Hnew as [-> | (qt & df & [-> | (missing & _ & ->)])].
  - split; [simpl; lia | now left].
  - split; [simpl; lia|]. right. exists qt, df. now left.
  - split; [simpl; lia|]. right. exists qt, df. right. now exists missing.
Qed.

(** C8. The context confirmation and the first selection call carry the
    configured model [OPENROUTER_MODEL]; the corrective retry carries
    the constant [DEFAULT_MODEL].  When the environment configures a
    model other than the default, the retry therefore runs on a model
    different from that of the selection call it corrects. *)
Theorem retry_uses_default_model {C : Collaborators} (G : Globals)
    (file : UploadFile) (s : State) (new : list CompletionRequest) :
  completions (snd (run (find_clauses G file) s)) = completions s ++ new ->
  (model <$> new = []
   \/ model <$> new = [OPENROUTER_MODEL G; OPENROUTER_MODEL G]
   \/ model <$> new = [OPENROUTER_MODEL G; OPENROUTER_MODEL G; DEFAULT_MODEL])
  /\ (forall m sel retry,
        getenv_OPENROUTER_MODEL G = Some m ->
        m <> DEFAULT_MODEL ->
        new !! 1%nat = Some sel ->
        new !! 2%nat = Some retry ->
        model sel = m /\ model retry = DEFAULT_MODEL
        /\ model retry <> model sel).
Proof.
  intros Hnew.
  destruct (find_clauses_log G file s) as (new' & Hlog & Hcases).
  rewrite Hlog in Hnew. apply app_inv_head in Hnew. subst new'.
  destruct Hcases as [-> | (qt & df & [-> | (missing & _ & ->)])].
  - split; [now left|]. intros m sel retry _ _ Hsel. discriminate Hsel.
  - split; [right; now left|]. intros m sel retry _ _ _ Hretry.
    discriminate Hretry.
  - split; [right; now right|]. intros m sel retry Hm Hne Hsel Hretry.
    injection Hsel as <-. injection Hretry as <-.
    cbn [model selection_request retry_request].
    unfold OPENROUTER_MODEL. rewrite Hm.
    split; [reflexivity | split; [reflexivity|]].
    intros E. apply Hne. symmetry. exact E.
Qed.

(** The reply and the final state of a request whose frames were built,
    by cases on the two parsed replies. *)
Lemma find_clauses_run {C : Collaborators} (G : Globals) (file : UploadFile)
    (s : State) (qt : string) (df : list CandidateClause) :
  extension_allowed (filename file) = true ->
  convert_file_to_text (file_bytes file) (filename file) = Ok qt ->
  candidates G (query_embedding_in s (md5_hexdigest (file_bytes file)) qt) qt
    = Some df ->
  run (find_clauses G file) s =
  let s1 := taken s (md5_hexdigest (file_bytes file)) in
  let ctx := context_request G qt in
  let sel := selection_request G qt df in
  match first_frame G qt df with
  | None => (dict_matches [], logged s1 [ctx; sel])
  | Some d1 =>
      if bool_decide (missing_clauses G d1 = [])
      then (dict_matches (build_matches G (get_emission_label d1)),
            logged s1 [ctx; sel])
      else
        let retry := retry_request G qt df (missing_clauses G d1) in
        match retry_frame G qt df (missing_clauses G d1) with
        | None => (dict_matches [], logged s1 [ctx; sel; retry])
        | Some d2 =>
            (dict_matches (build_matches G (get_emission_label d2)),
             logged s1 [ctx; sel; retry])
        end
  end.
Proof.
  intros Hx Hc Hd. unfold run.
  rewrite (find_clauses_accepted G file s qt Hx Hc). cbv zeta.
  rewrite Hd, select_clauses_eq. cbv zeta.
  destruct (first_frame G qt df) as [d1|]; [|reflexivity].
  destruct (bool_decide _); [reflexivity|].
  now destruct (retry_frame _ _ _ _).
Qed.

(** Membership in the list of names without a close match. *)
Lemma elem_of_missing_clauses {C : Collaborators} (G : Globals)
    (d : list SelectionRow) (clause : string) :
  clause ∈ missing_clauses G d <->
  clause ∈ Clause_Name <$> d
  /\ get_close_matches (clause +:+ ".txt") (names G) 1 0.8%Q = [].
Proof.
  unfold missing_clauses. rewrite list_elem_of_filter. tauto.
Qed.

Lemma missing_clauses_nonempty {C : Collaborators} (G : Globals)
    (d : list SelectionRow) :
  missing_clauses G d <> [] <->
  exists clause,
    clause ∈ Clause_Name <$> d
    /\ get_close_matches (clause +:+ ".txt") (names G) 1 0.8%Q = [].
Proof.
  split.
  - intros Hne. destruct (missing_clauses G d) as [|c l] eqn:E; [done|].
    exists c. apply elem_of_missing_clauses. rewrite E. left.
  - intros (c & Hc) E. apply elem_of_missing_clauses in Hc.
    rewrite E in Hc. inversion Hc.
Qed.

(** C4. Once the upload is accepted and the candidate frame built: if
    the reply to the selection request does not parse, the handler
    returns the dictionary with an empty ["matches"] list after the two
    calls made so far, without a retry; if the reply parses, a retry is
    made and the reply to the retry does not parse, the handler returns
    the same dictionary after three calls.  In both cases the value is
    an ordinary return, neither an error response nor an exception. *)
Theorem unparsed_reply_gives_empty_matches {C : Collaborators} (G : Globals)
    (file : UploadFile) (s : State) (qt : string) (df : list CandidateClause) :
  extension_allowed (filename file) = true ->
  convert_file_to_text (file_bytes file) (filename file) = Ok qt ->
  candidates G (query_embedding_in s (md5_hexdigest (file_bytes file)) qt) qt
    = Some df ->
  (first_frame G qt df = None ->
   run (find_clauses G file) s =
   (dict_matches [],
    logged (taken s (md5_hexdigest (file_bytes file)))
      [context_request G qt; selection_request G qt df]))
  /\ (forall d1,
        first_frame G qt df = Some d1 ->
        missing_clauses G d1 <> [] ->
        retry_frame G qt df (missing_clauses G d1) = None ->
        run (find_clauses G file) s =
        (dict_matches [],
         logged (taken s (md5_hexdigest (file_bytes file)))
           [context_request G qt; selection_request G qt df;
            retry_request G qt df (missing_clauses G d1)])).
Proof.
  intros Hx Hc Hd.
  rewrite (find_clauses_run G file s qt df Hx Hc Hd). cbv zeta. split.
  - now intros ->.
  - intros d1 -> Hm ->. now rewrite bool_decide_eq_false_2.
Qed.

(** C3. For an accepted upload whose selection reply parses to [d1]:
    the names reported as missing are exactly the returned names for
    which [get_close_matches (name + ".txt") names 1 0.8] is empty; the
    log ends with exactly one corrective request if and only if some
    returned name has no close match, and with the selection request
    otherwise; and when the reply to the retry parses, the matches are
    built from that frame as it is, whatever names it holds. *)
Theorem validation_then_single_unchecked_retry {C : Collaborators} (G : Globals)
    (file : UploadFile) (s : State) (qt : string) (df : list CandidateClause)
    (d1 : list SelectionRow) :
  extension_allowed (filename file) = true ->
  convert_file_to_text (file_bytes file) (filename file) = Ok qt ->
  candidates G (query_embedding_in s (md5_hexdigest (file_bytes file)) qt) qt
    = Some df ->
  first_frame G qt df = Some d1 ->
  let unmatched :=
    exists clause,
      clause ∈ Clause_Name <$> d1
      /\ get_close_matches (clause +:+ ".txt") (names G) 1 0.8%Q = [] in
  let after := snd (run (find_clauses G file) s) in
  (forall clause,
     clause ∈ missing_clauses G d1 <->
     clause ∈ Clause_Name <$> d1
     /\ get_close_matches (clause +:+ ".txt") (names G) 1 0.8%Q = [])
  /\ (unmatched <->
      completions after =
      completions s ++ [context_request G qt; selection_request G qt df;
                        retry_request G qt df (missing_clauses G d1)])
  /\ (~ unmatched <->
      completions after =
      completions s ++ [context_request G qt; selection_request G qt df])
  /\ (forall d2,
        unmatched ->
        retry_frame G qt df (missing_clauses G d1) = Some d2 ->
        fst (run (find_clauses G file) s) =
        dict_matches (build_matches G (get_emission_label d2))).
Proof.
  intros Hx Hc Hd H1 unmatched after. subst after.
  rewrite (find_clauses_run G file s qt df Hx Hc Hd). cbv zeta. rewrite H1.
  assert (Hu : unmatched <-> missing_clauses G d1 <> [])
    by (symmetry; apply missing_clauses_nonempty).
  split; [apply elem_of_missing_clauses|].
  case_bool_decide as Hm.
  - cbn [fst snd]. rewrite completions_logged_taken.
    split; [|split].
    + rewrite Hu. split; [congruence|].
      intros E. apply app_inv_head in E. discriminate E.
    + rewrite Hu. split; [reflexivity | congruence].
    + intros d2 Hun. apply Hu in Hun. congruence.
  - destruct (retry_frame G qt df (missing_clauses G d1)) as [d2|];
      cbn [fst snd]; rewrite completions_logged_taken.
    + split; [|split].
      * rewrite Hu. tauto.
      * rewrite Hu. split; [tauto|].
        intros E. apply app_inv_head in E. discriminate E.
      * intros d2' _ [= ->]. reflexivity.
    + split; [|split].
      * rewrite Hu. tauto.
      * rewrite Hu. split; [tauto|].
        intros E. apply app_inv_head in E. discriminate E.
      * intros d2' _ [=].
Qed.

(** ** The names of the reply *)

Lemma match_names_build {C : Collaborators} (G : Globals)
    (d : list (EnrichedRow Labels)) (n : string) :
  n ∈ match_names (dict_matches (Classification := Classification) (build_matches G d)) ->
  exists r, r ∈ d /\ n = Py.replace (row_Clause_Name r) ".txt" "".
Proof.
  cbn [match_names]. unfold build_matches. rewrite <- list_fmap_compose.
  intros (r & -> & Hr)%list_elem_of_fmap. now exists r.
Qed.

(** Without a retry every returned name passed the close-match test. *)
Lemma checked_names {C : Collaborators} (G : Globals) (d : list SelectionRow)
    (clause : string) :
  missing_clauses G d = [] ->
  clause ∈ Clause_Name <$> d ->
  get_close_matches (clause +:+ ".txt") (names G) 1 0.8%Q <> [].
Proof.
  intros Hm Hin Hnone.
  assert (Hc : clause ∈ missing_clauses G d)
    by now apply elem_of_missing_clauses.
  rewrite Hm in Hc. inversion Hc.
Qed.

(** C1 (amended). Provided the enrichment keeps the clause names of the
    frame it is given, every name in the matches of a reply is a clause
    name returned by the completion service with each occurrence of
    ".txt" removed.  When no retry was issued, that clause name with
    ".txt" appended has a close match at cutoff 0.8 in the list of
    names; when a retry was issued, the clause name is one of the
    retry's frame, which is not compared with the list of names. *)
Theorem match_names_checked_or_retried {C : Collaborators} (G : Globals)
    (file : UploadFile) (s : State) (n : string) :
  (forall d r, r ∈ get_emission_label d ->
               exists r0, r0 ∈ d /\ row_Clause_Name r = Clause_Name r0) ->
  n ∈ match_names (fst (run (find_clauses G file) s)) ->
  exists qt df d1 clause,
    convert_file_to_text (file_bytes file) (filename file) = Ok qt
    /\ candidates G (query_embedding_in s (md5_hexdigest (file_bytes file)) qt) qt
       = Some df
    /\ first_frame G qt df = Some d1
    /\ n = Py.replace clause ".txt" ""
    /\ ((missing_clauses G d1 = []
         /\ clause ∈ Clause_Name <$> d1
         /\ get_close_matches (clause +:+ ".txt") (names G) 1 0.8%Q <> [])
        \/ (missing_clauses G d1 <> []
            /\ exists d2,
                 retry_frame G qt df (missing_clauses G d1) = Some d2
                 /\ clause ∈ Clause_Name <$> d2)).
Proof.
  intros Hkeep Hn.
  destruct (extension_allowed (filename file)) eqn:Hx.
  2:{ unfold run in Hn. rewrite find_clauses_rejected in Hn by assumption.
      inversion Hn. }
  destruct (convert_file_to_text (file_bytes file) (filename file))
    as [qt|e] eqn:Hc.
  2:{ unfold run in Hn.
      rewrite (find_clauses_unconverted G file s e) in Hn by assumption.
      inversion Hn. }
  destruct (find_clauses_outcome G file s qt Hx Hc)
    as [Hd | df Hd H1 | df d1 Hd H1 Hm | df d1 Hd H1 Hm H2 | df d1 d2 Hd H1 Hm H2];
    try (now inversion Hn).
  - apply match_names_build in Hn as (r & Hr & ->).
    destruct (Hkeep _ _ Hr) as (r0 & Hr0 & ->).
    exists qt, df, d1, (Clause_Name r0). repeat split; try assumption.
    left. assert (Hin : Clause_Name r0 ∈ Clause_Name <$> d1)
      by now apply list_elem_of_fmap_2.
    split; [assumption | split; [assumption|]].
    now apply (checked_names G d1).
  - apply match_names_build in Hn as (r & Hr & ->).
    destruct (Hkeep _ _ Hr) as (r0 & Hr0 & ->).
    exists qt, df, d1, (Clause_Name r0). repeat split; try assumption.
    right. split; [assumption|]. exists d2. split; [assumption|].
    now apply list_elem_of_fmap_2.
Qed.

(** ** The extension gate *)

Lemma unsupported_not_conversion {C : Collaborators} (e : string) :
  unsupported_extension (C := C) <> conversion_failed e.
Proof. unfold unsupported_extension, conversion_failed. intros [= H]. Qed.

(** The reply of either handler is the refusal exactly when the gate
    test fails, for [process_contract] once the directories are in
    place. *)
Lemma gate_reply {C : Collaborators} (G : Globals) (file : UploadFile) (s : State) :
  (fst (run (find_clauses G file) s) = unsupported_extension
   <-> extension_allowed (filename file) = false)
  /\ (fst (run (process_contract file) s) = unsupported_extension
      <-> recreate_directories = Ok tt
          /\ extension_allowed (filename file) = false).
Proof.
  split.
  - destruct (extension_allowed (filename file)) eqn:Hx.
    + split; [|discriminate].
      destruct (convert_file_to_text (file_bytes file) (filename file))
        as [qt|e] eqn:Hc.
      * destruct (find_clauses_outcome G file s qt Hx Hc); discriminate.
      * unfold run. rewrite (find_clauses_unconverted G file s e Hx Hc).
        cbn [fst]. intros E. symmetry in E.
        now apply unsupported_not_conversion in E.
    + unfold run. now rewrite find_clauses_rejected.
  - unfold run. rewrite process_contract_cases.
    destruct recreate_directories as [[]|m];
      [|split; [discriminate | intros [[=] _]]].
    destruct (extension_allowed (filename file)); [|now split].
    split; [|intros [_ [=]]].
    destruct (write_bytes _ _); [|discriminate].
    destruct (convert_file_to_text _ _) as [t|e].
    + destruct (write_text _ _); discriminate.
    + cbn [fst]. intros E. symmetry in E.
      now apply unsupported_not_conversion in E.
Qed.

Lemma lower_char_same_letter (p c : ascii) :
  (65 <=? nat_of_ascii p)%nat && (nat_of_ascii p <=? 90)%nat = false ->
  Py.lower_char c = p <-> same_letter p c = true.
Proof.
  intros Hp. unfold Py.lower_char, same_letter.
  pose proof (nat_ascii_bounded c) as Hc.
  rewrite orb_true_iff, !andb_true_iff, Ascii.eqb_eq,
    !Nat.leb_le, Nat.eqb_eq.
  apply andb_false_iff in Hp. rewrite !Nat.leb_gt in Hp.
  destruct ((65 <=? nat_of_ascii c)%nat && (nat_of_ascii c <=? 90)%nat) eqn:Hu.
  - apply andb_true_iff in Hu. rewrite !Nat.leb_le in Hu. split.
    + intros <-. right. rewrite nat_ascii_embedding by lia. lia.
    + intros [<- | [_ E]]; [lia|]. rewrite E. apply ascii_nat_embedding.
  - apply andb_false_iff in Hu. rewrite !Nat.leb_gt in Hu. split.
    + intros ->. now left.
    + intros [-> | [? ?]]; [reflexivity | lia].
Qed.

Lemma lower_case_variant (ext tail : string) :
  no_upper ext = true ->
  Py.lower tail = ext <-> case_variant ext tail = true.
Proof.
  revert tail. induction ext as [|p ext IH]; intros [|c tail] Hn;
    cbn [Py.lower case_variant]; try (split; [discriminate | discriminate]);
    [tauto|].
  cbn [no_upper] in Hn. apply andb_true_iff in Hn as [Hp Hn].
  apply negb_true_iff in Hp.
  rewrite andb_true_iff, <- (lower_char_same_letter p c Hp), <- (IH tail Hn).
  split; [intros [= -> ->]; tauto | intros [-> ->]; reflexivity].
Qed.

Lemma lower_drop (n : nat) (s : string) :
  Py.lower (Py.drop n s) = Py.drop n (Py.lower s).
Proof.
  revert s. induction n as [|n IH]; intros [|c s]; cbn; auto.
Qed.

Lemma has_suffix_lower (ext fname : string) :
  has_suffix ext (Py.lower fname) <->
  exists stem tail, fname = stem +:+ tail /\ Py.lower tail = ext.
Proof.
  split.
  - intros [p Hp]. exists (Py.take (String.length p) fname),
      (Py.drop (String.length p) fname).
    split; [symmetry; apply take_drop|].
    rewrite lower_drop, Hp. apply drop_app.
  - intros (stem & tail & -> & <-). exists (Py.lower stem). apply lower_app.
Qed.

(** The gate test holds exactly of the names that end with a case
    variant of one of the five extensions. *)
Lemma extension_allowed_variants (fname : string) :
  extension_allowed fname = true <->
  exists ext, ext ∈ [".txt"; ".pdf"; ".docx"; ".doc"; ".md"]
              /\ ends_with_variant_of ext fname.
Proof.
  rewrite extension_allowed_spec. unfold ends_with_variant_of.
  change allowed_extensions with [".txt"; ".pdf"; ".docx"; ".doc"; ".md"].
  split; intros (ext & Hin & H); exists ext; (split; [exact Hin|]).
  - apply has_suffix_lower in H as (stem & tail & E & Hl).
    exists stem, tail. split; [exact E|]. apply lower_case_variant; [|exact Hl].
    repeat (apply elem_of_cons in Hin as [->|Hin]; [reflexivity|]).
    inversion Hin.
  - destruct H as (stem & tail & E & Hv). apply has_suffix_lower.
    exists stem, tail. split; [exact E|]. apply lower_case_variant; [|exact Hv].
    repeat (apply elem_of_cons in Hin as [->|Hin]; [reflexivity|]).
    inversion Hin.
Qed.

(** C10. For both upload handlers the extension test ignores case.  The
    reply of [find_clauses] is the refusal "Only .txt, .pdf, .docx,
    .doc, .md files are supported." with status 400 if and only if the
    file name does not end with one of .txt, .pdf, .docx, .doc, .md in
    any mixture of upper and lower case; equivalently, if and only if
    the lower-cased name ends with none of the five.  The same holds of
    [process_contract] once its directories are in place.  So a name
    ending in an upper-case or mixed-case variant of an allowed
    extension passes the test under both handlers. *)
Theorem extension_gate_ignores_case {C : Collaborators} (G : Globals)
    (file : UploadFile) (s : State) :
  let five := [".txt"; ".pdf"; ".docx"; ".doc"; ".md"] in
  let refusal :=
    JSONResponse_error
      "Only .txt, .pdf, .docx, .doc, .md files are supported." 400 in
  let ends_allowed :=
    exists ext, ext ∈ five /\ ends_with_variant_of ext (filename file) in
  (ends_allowed <->
   exists ext, ext ∈ five /\ has_suffix ext (Py.lower (filename file)))
  /\ (fst (run (find_clauses G file) s) = refusal <-> ~ ends_allowed)
  /\ (fst (run (process_contract file) s) = refusal
      <-> recreate_directories = Ok tt /\ ~ ends_allowed)
  /\ (forall stem ext,
        filename file = stem +:+ ext ->
        Py.lower ext ∈ five ->
        ends_allowed
        /\ fst (run (find_clauses G file) s) <> refusal
        /\ fst (run (process_contract file) s) <> refusal).
Proof.
  intros five refusal ends_allowed.
  change refusal with (unsupported_extension (C := C)).
  destruct (gate_reply G file s) as [Hf Hp].
  assert (Hv : extension_allowed (filename file) = true <-> ends_allowed)
    by apply extension_allowed_variants.
  assert (Hg : extension_allowed (filename file) = false <-> ~ ends_allowed)
    by now rewrite <- not_true_iff_false, Hv.
  split; [|split; [|split]].
  - rewrite <- Hv. apply extension_allowed_spec.
  - now rewrite Hf.
  - now rewrite Hp, Hg.
  - intros stem ext Hname Hext.
    assert (Ha : ends_allowed).
    { apply Hv, extension_allowed_spec. exists (Py.lower ext).
      split; [exact Hext|]. exists (Py.lower stem). rewrite Hname.
      apply lower_app. }
    split; [exact Ha|]. rewrite Hf, Hp, Hg. tauto.
Qed.

(** ** The embedding cache *)

(** An accepted request to [find_clauses] leaves the cache without the
    entry of its upload and touches no other entry. *)
Lemma find_clauses_cache {C : Collaborators} (G : Globals) (file : UploadFile)
    (s : State) (qt : string) :
  extension_allowed (filename file) = true ->
  convert_file_to_text (file_bytes file) (filename file) = Ok qt ->
  embedding_cache (snd (run (find_clauses G file) s))
  = delete (md5_hexdigest (file_bytes file)) (embedding_cache s).
Proof.
  intros Hx Hc.
  destruct (find_clauses_outcome G file s qt Hx Hc);
    unfold logged; cbn [embedding_cache]; apply cache_taken.
Qed.


(** Two states whose caches hold the same embeddings under the same
    digests give the same query embedding and stay so related. *)
Lemma query_embedding_in_ext {C : Collaborators} (s1 s2 : State) (h qt : string) :
  entry_embedding <$> embedding_cache s1 = entry_embedding <$> embedding_cache s2 ->
  query_embedding_in s1 h qt = query_embedding_in s2 h qt.
Proof.
  intros E. unfold query_embedding_in.
  assert (E' : entry_embedding <$> (embedding_cache s1 !! h)
               = entry_embedding <$> (embedding_cache s2 !! h))
    by now rewrite <- !lookup_fmap, E.
  destruct (embedding_cache s1 !! h), (embedding_cache s2 !! h);
    cbn in E'; congruence.
Qed.

(** C9. [find_clauses] never reads the text kept in a cache entry: two
    states with the same log whose caches hold the same embeddings
    under the same digests, whatever texts accompany them, give the
    same reply, the same requests to the completion service and caches
    that again agree on their embeddings.  Whether or not the cache
    holds an entry for the upload, the contract shown to the completion
    service is the text the conversion step returns for the uploaded
    bytes. *)
Theorem cached_text_is_never_read {C : Collaborators} (G : Globals)
    (file : UploadFile) (s1 s2 : State) :
  completions s1 = completions s2 ->
  entry_embedding <$> embedding_cache s1 = entry_embedding <$> embedding_cache s2 ->
  fst (run (find_clauses G file) s1) = fst (run (find_clauses G file) s2)
  /\ completions (snd (run (find_clauses G file) s1))
     = completions (snd (run (find_clauses G file) s2))
  /\ entry_embedding <$> embedding_cache (snd (run (find_clauses G file) s1))
     = entry_embedding <$> embedding_cache (snd (run (find_clauses G file) s2))
  /\ (forall qt df,
        extension_allowed (filename file) = true ->
        convert_file_to_text (file_bytes file) (filename file) = Ok qt ->
        candidates G
          (query_embedding_in s1 (md5_hexdigest (file_bytes file)) qt) qt
        = Some df ->
        exists rest,
          completions (snd (run (find_clauses G file) s1))
          = completions s1 ++ context_request G qt :: rest).
Proof.
  intros Hlog Hemb.
  destruct (extension_allowed (filename file)) eqn:Hx.
  2:{ unfold run. rewrite !find_clauses_rejected by assumption.
      cbn [fst snd]. repeat split; try assumption. discriminate. }
  destruct (convert_file_to_text (file_bytes file) (filename file))
    as [qt|e] eqn:Hc.
  2:{ unfold run. rewrite !(find_clauses_unconverted G file _ e Hx Hc).
      cbn [fst snd]. repeat split; try assumption. discriminate. }
  set (h := md5_hexdigest (file_bytes file)).
  assert (Hcache :
    entry_embedding <$> embedding_cache (snd (run (find_clauses G file) s1))
    = entry_embedding <$> embedding_cache (snd (run (find_clauses G file) s2))).
  { rewrite !(find_clauses_cache G file _ qt Hx Hc), !fmap_delete.
    now rewrite Hemb. }
  assert (Hrun : forall s,
    (fst (run (find_clauses G file) s),
     completions (snd (run (find_clauses G file) s)))
    = match candidates G (query_embedding_in s h qt) qt with
      | None => (unhandled_ValueError, completions s)
      | Some df =>
          (fst (run (find_clauses G file) s),
           completions (snd (run (find_clauses G file) s)))
      end).
  { intros s. destruct (candidates _ _ _) eqn:Hd; [reflexivity|].
    unfold run. rewrite (find_clauses_accepted G file s qt Hx Hc).
    cbv zeta. fold h. rewrite Hd. cbn [fst snd]. now rewrite completions_taken. }
  assert (Hboth :
    (fst (run (find_clauses G file) s1),
     completions (snd (run (find_clauses G file) s1)))
    = (fst (run (find_clauses G file) s2),
       completions (snd (run (find_clauses G file) s2)))).
  { rewrite (Hrun s1), (Hrun s2).
    rewrite (query_embedding_in_ext s1 s2 h qt Hemb).
    destruct (candidates G (query_embedding_in s2 h qt) qt) as [df|] eqn:Hd;
      [|now rewrite Hlog].
    assert (Hd1 : candidates G (query_embedding_in s1 h qt) qt = Some df)
      by now rewrite (query_embedding_in_ext s1 s2 h qt Hemb).
    rewrite (find_clauses_run G file s1 qt df Hx Hc Hd1).
    rewrite (find_clauses_run G file s2 qt df Hx Hc Hd).
    cbv zeta. fold h.
    destruct (first_frame G qt df) as [d1|];
      [|cbn [fst snd]; now rewrite !completions_logged_taken, Hlog].
    destruct (bool_decide _);
      [cbn [fst snd]; now rewrite !completions_logged_taken, Hlog|].
    destruct (retry_frame _ _ _ _);
      cbn [fst snd]; now rewrite !completions_logged_taken, Hlog. }
  injection Hboth as Hfst Hsnd.
  split; [exact Hfst|]. split; [exact Hsnd|]. split; [exact Hcache|].
  intros qt' df _ [= <-] Hd.
  rewrite (find_clauses_run G file s1 qt df Hx Hc Hd). cbv zeta.
  destruct (first_frame G qt df) as [d1|];
    [|cbn [snd]; rewrite completions_logged_taken; eauto].
  destruct (bool_decide _);
    [cbn [snd]; rewrite completions_logged_taken; eauto|].
  destruct (retry_frame _ _ _ _);
    cbn [snd]; rewrite completions_logged_taken; eauto.
Qed.

(** ** Retrieval *)

Section RetrievalFacts.

Context {C : Collaborators}.
Variable G : Globals.

(** A frame that could be built has the three columns it was given. *)
Lemma DataFrame_columns (texts source_names tags : list string)
    (df : list CandidateClause) :
  DataFrame texts source_names tags = Some df ->
  text <$> df = texts /\ source_name <$> df = source_names
  /\ matched_by <$> df = tags.
Proof.
  unfold DataFrame. case_decide as Hlen; [|discriminate].
  intros [= <-]. destruct Hlen as [H1 H2].
  revert source_names tags H1 H2.
  induction texts as [|t texts IH]; intros [|n ns] [|g gs] H1 H2;
    try discriminate; [now cbn|].
  injection H1 as H1. injection H2 as H2.
  destruct (IH ns gs H1 H2) as (IHt & IHn & IHg).
  cbn. cbn in IHt, IHn, IHg. now rewrite IHt, IHn, IHg.
Qed.

(** The two frames [candidates] concatenates. *)
Lemma candidates_frames (qe : Embedding) (qt : string)
    (subset_docs subset_names top_names_bow top_texts_bow : list string)
    (df : list CandidateClause) :
  perform_cluster qe = (subset_docs, subset_names) ->
  (let bow := find_top_similar_bow qt (docs G) (names G) 0.1%Q 20 in
   get_embedding_matches_subset qe (Documents bow) (Top_Matches bow) 5)
  = (top_names_bow, top_texts_bow) ->
  candidates G qe qt = Some df ->
  exists df_cluster df_bow,
    df = df_cluster ++ head 5 df_bow
    /\ DataFrame subset_docs subset_names
         (replicate (length subset_names) "cluster") = Some df_cluster
    /\ DataFrame top_texts_bow top_names_bow
         (replicate (length top_texts_bow) "bow") = Some df_bow.
Proof.
  cbv zeta. intros Hc Hb. unfold candidates. rewrite Hc, Hb.
  destruct (DataFrame subset_docs _ _) as [dc|]; [|discriminate].
  destruct (DataFrame top_texts_bow _ _) as [db|]; [|discriminate].
  cbn. intros [= <-]. now exists dc, db.
Qed.

(** C7. The frame handed to the selection step is the cluster frame
    followed by the bag-of-words frame (its first five rows), every row
    tagged with the strategy that produced it and nothing removed: a
    clause name found by both strategies is in the frame twice, once
    tagged [cluster] among the first rows and once tagged [bow] after
    them. *)
Theorem candidates_are_cluster_then_bow (qe : Embedding) (qt : string)
    (subset_docs subset_names top_names_bow top_texts_bow : list string)
    (df : list CandidateClause) :
  perform_cluster qe = (subset_docs, subset_names) ->
  (let bow := find_top_similar_bow qt (docs G) (names G) 0.1%Q 20 in
   get_embedding_matches_subset qe (Documents bow) (Top_Matches bow) 5)
  = (top_names_bow, top_texts_bow) ->
  candidates G qe qt = Some df ->
  exists df_cluster df_bow,
    df = df_cluster ++ df_bow
    /\ text <$> df_cluster = subset_docs
    /\ source_name <$> df_cluster = subset_names
    /\ matched_by <$> df_cluster = replicate (length subset_names) "cluster"
    /\ text <$> df_bow = take 5 top_texts_bow
    /\ source_name <$> df_bow = take 5 top_names_bow
    /\ matched_by <$> df_bow = replicate (length df_bow) "bow"
    /\ length df = (length subset_names + length df_bow)%nat
    /\ forall n,
         n ∈ subset_names -> n ∈ take 5 top_names_bow ->
         exists i j r1 r2,
           (i < length df_cluster <= j)%nat
           /\ df !! i = Some r1 /\ df !! j = Some r2
           /\ source_name r1 = n /\ matched_by r1 = "cluster"
           /\ source_name r2 = n /\ matched_by r2 = "bow".
Proof.
  intros Hc Hb Hdf.
  destruct (candidates_frames qe qt _ _ _ _ df Hc Hb Hdf)
    as (dc & db & -> & Hdc & Hdb).
  apply DataFrame_columns in Hdc as (Hct & Hcn & Hcg).
  apply DataFrame_columns in Hdb as (Hbt & Hbn & Hbg).
  exists dc, (head 5 db). unfold head.
  assert (Hbg' : matched_by <$> take 5 db = replicate (length (take 5 db)) "bow").
  { rewrite fmap_take, Hbg, take_replicate, length_take.
    now rewrite <- Hbt, length_fmap. }
  assert (Hlc : length dc = length subset_names)
    by now rewrite <- Hcn, length_fmap.
  split; [reflexivity|]. split; [exact Hct|]. split; [exact Hcn|].
  split; [exact Hcg|].
  split; [now rewrite fmap_take, Hbt|].
  split; [now rewrite fmap_take, Hbn|].
  split; [exact Hbg'|].
  split; [now rewrite length_app, Hlc|].
  intros n Hn1 Hn2.
  rewrite <- Hcn in Hn1. rewrite <- Hbn, <- fmap_take in Hn2.
  apply list_elem_of_fmap in Hn1 as (r1 & -> & Hr1).
  apply list_elem_of_fmap in Hn2 as (r2 & Hr2n & Hr2).
  apply list_elem_of_lookup in Hr1 as (i & Hi).
  apply list_elem_of_lookup in Hr2 as (j & Hj).
  exists i, (length dc + j)%nat, r1, r2.
  pose proof (lookup_lt_Some _ _ _ Hi) as Hlt.
  split; [lia|].
  split; [now rewrite lookup_app_l|].
  split; [rewrite lookup_app_r by lia;
          now replace (length dc + j - length dc)%nat with j by lia|].
  split; [reflexivity|].
  split.
  - apply (elem_of_replicate_inv _ (length subset_names)).
    rewrite <- Hcg. apply list_elem_of_fmap_2.
    apply list_elem_of_lookup. now exists i.
  - split; [now symmetry|].
    apply (elem_of_replicate_inv _ (length (take 5 db))).
    rewrite <- Hbg'. apply list_elem_of_fmap_2.
    apply list_elem_of_lookup. now exists j.
Qed.

End RetrievalFacts.

(** ** The lexical matcher *)

Section SortFacts.

Context {A : Type}.

Lemma elem_of_insert_by_score (x y : Q * A) (l : list (Q * A)) :
  y ∈ insert_by_score x l -> y = x \/ y ∈ l.
Proof.
  induction l as [|z l IH]; cbn.
  - intros Hy. apply list_elem_of_singleton in Hy. now left.
  - destruct (Qle_bool (fst z) (fst x)).
    + intros Hy. apply elem_of_cons in Hy as [->|Hy]; [now left | now right].
    + intros Hy. apply elem_of_cons in Hy as [->|Hy].
      * right. left.
      * destruct (IH Hy) as [->|Hl]; [now left | right; now right].
Qed.

Lemma elem_of_sort_by_score (y : Q * A) (l : list (Q * A)) :
  y ∈ sort_by_score l -> y ∈ l.
Proof.
  induction l as [|x l IH]; cbn; [trivial|].
  intros Hy. apply elem_of_insert_by_score in Hy as [->|Hy].
  - left.
  - right. now apply IH.
Qed.

Lemma length_insert_by_score (x : Q * A) (l : list (Q * A)) :
  length (insert_by_score x l) = S (length l).
Proof.
  induction l as [|z l IH]; cbn; [reflexivity|].
  destruct (Qle_bool (fst z) (fst x)); cbn; [reflexivity | now rewrite IH].
Qed.

End SortFacts.

(** Two columns mapped from one list pair up row by row. *)
Lemma elem_of_zip_fmap {A B D : Type} (f : A -> B) (g : A -> D) (l : list A)
    (b : B) (d : D) :
  (b, d) ∈ zip (f <$> l) (g <$> l) -> exists x, x ∈ l /\ b = f x /\ d = g x.
Proof.
  rewrite zip_with_fmap_l, zip_with_fmap_r, zip_with_diag.
  intros (x & [= -> ->] & Hx)%list_elem_of_fmap. now exists x.
Qed.

Lemma elem_of_zip_lookup {A B : Type} (l : list A) (k : list B) (a : A) (b : B) :
  (a, b) ∈ zip l k -> exists i, l !! i = Some a /\ k !! i = Some b.
Proof.
  intros (i & Hi)%list_elem_of_lookup. exists i.
  apply lookup_zip_with_Some in Hi as (x & y & [= -> ->] & Hx & Hy). now split.
Qed.

(** A row of a frame pairs a text and a name of the columns given. *)
Lemma DataFrame_rows (texts source_names tags : list string)
    (df : list CandidateClause) (row : CandidateClause) :
  DataFrame texts source_names tags = Some df ->
  row ∈ df ->
  (text row, source_name row) ∈ zip texts source_names.
Proof.
  unfold DataFrame. case_decide as Hlen; [|discriminate].
  intros [= <-] (i & Hi)%list_elem_of_lookup.
  apply lookup_zip_with_Some in Hi as ([t n] & g & -> & Hp & _).
  cbn. apply list_elem_of_lookup. now exists i.
Qed.

(** What the lexical matcher of the description returns: entries of
    the corpus whose similarity to the query exceeds the threshold. *)
Lemma spec_find_top_similar_bow_sound (similarity : string -> string -> Q)
    (target : string) (documents file_names : list string) (threshold : Q)
    (k : nat) (n d : string) :
  (n, d) ∈ zip (Top_Matches (spec_find_top_similar_bow similarity target
                               documents file_names threshold k))
               (Documents (spec_find_top_similar_bow similarity target
                             documents file_names threshold k)) ->
  (exists i, file_names !! i = Some n /\ documents !! i = Some d)
  /\ (threshold < similarity target d)%Q.
Proof.
  unfold spec_find_top_similar_bow. cbn [Top_Matches Documents].
  intros (y & Hy & -> & ->)%elem_of_zip_fmap.
  apply subseteq_take, elem_of_sort_by_score in Hy.
  apply list_elem_of_In, filter_In in Hy as [Hy Hs].
  apply list_elem_of_In, list_elem_of_fmap in Hy as ([n d] & -> & Hnd).
  cbn in *. split.
  - now apply elem_of_zip_lookup.
  - apply negb_true_iff in Hs.
    destruct (Qlt_le_dec threshold (similarity target d)) as [Hlt|Hle];
      [exact Hlt|].
    apply Qle_bool_iff in Hle. congruence.
Qed.

(** The re-ranking of the description returns entries of the pool. *)
Lemma spec_get_embedding_matches_subset_sound {E : Type} (encode : string -> E)
    (esim : E -> E -> Q) (qe : E) (top_docs top_names : list string) (k : nat)
    (n d : string) :
  (d, n) ∈ zip (snd (spec_get_embedding_matches_subset encode esim qe
                       top_docs top_names k))
               (fst (spec_get_embedding_matches_subset encode esim qe
                       top_docs top_names k)) ->
  (n, d) ∈ zip top_names top_docs.
Proof.
  unfold spec_get_embedding_matches_subset. cbn [fst snd].
  intros (y & Hy & -> & ->)%elem_of_zip_fmap.
  apply subseteq_take, elem_of_sort_by_score in Hy.
  apply list_elem_of_fmap in Hy as ([n d] & -> & Hnd). exact Hnd.
Qed.

(** C5. The frame handed to the selection step has at most as many
    rows as the assigned cluster has entries plus five.  With the
    lexical matcher and the re-ranking as the specification describes
    them, every row tagged [bow] is an entry of the corpus whose
    bag-of-words similarity to the query text is above 0.1. *)
Theorem candidate_count_and_bow_threshold {C : Collaborators} (G : Globals)
    (qe : Embedding) (qt : string) (df : list CandidateClause)
    (similarity : string -> string -> Q)
    (embedding_similarity : Embedding -> Embedding -> Q) :
  candidates G qe qt = Some df ->
  (length df <= length (snd (perform_cluster qe)) + 5)%nat
  /\ ((forall t d f th k,
         find_top_similar_bow t d f th k
         = spec_find_top_similar_bow similarity t d f th k) ->
      (forall q d n k,
         get_embedding_matches_subset q d n k
         = spec_get_embedding_matches_subset encode_text embedding_similarity
             q d n k) ->
      forall row,
        row ∈ df -> matched_by row = "bow" ->
        (exists i, names G !! i = Some (source_name row)
                   /\ docs G !! i = Some (text row))
        /\ (0.1 < similarity qt (text row))%Q).
Proof.
  intros Hdf.
  destruct (perform_cluster qe) as [sd sn] eqn:Hc.
  destruct (get_embedding_matches_subset qe
              (Documents (find_top_similar_bow qt (docs G) (names G) 0.1%Q 20))
              (Top_Matches (find_top_similar_bow qt (docs G) (names G) 0.1%Q 20))
              5) as [nb tb] eqn:Hb.
  destruct (candidates_frames G qe qt sd sn nb tb df Hc Hb Hdf)
    as (dc & db & -> & Hdc & Hdb).
  pose proof (DataFrame_columns _ _ _ _ Hdc) as (_ & Hcn & Hcg).
  split.
  - cbn [snd]. rewrite length_app. unfold head. rewrite length_take.
    rewrite <- Hcn, length_fmap. lia.
  - intros Hbow Hsub row Hrow Htag.
    apply elem_of_app in Hrow as [Hrow|Hrow].
    { exfalso. assert (Hg : matched_by row ∈ matched_by <$> dc)
        by now apply list_elem_of_fmap_2.
      rewrite Hcg in Hg. apply elem_of_replicate_inv in Hg.
      rewrite Htag in Hg. discriminate Hg. }
    apply subseteq_take in Hrow.
    pose proof (DataFrame_rows _ _ _ _ row Hdb Hrow) as Hpair.
    rewrite Hsub in Hb.
    replace tb with (snd (nb, tb)) in Hpair by reflexivity.
    replace nb with (fst (nb, tb)) in Hpair at 2 by reflexivity.
    rewrite <- Hb in Hpair.
    apply spec_get_embedding_matches_subset_sound in Hpair.
    rewrite Hbow in Hpair.
    now apply spec_find_top_similar_bow_sound in Hpair.
Qed.

(** * The handlers on the small deployment *)

Ltac by_evaluation := vm_compute; reflexivity.

Example lower_mixed : Py.lower "Lease.PDF" = "lease.pdf".
Proof. reflexivity. Qed.

Example endswith_short_name : Py.endswith "df" ".pdf" = false.
Proof. reflexivity. Qed.

Example strip_both_ends :
  Py.strip ("  a b" +:+ nl +:+ " ") = "a b".
Proof. reflexivity. Qed.

Example replace_every_occurrence :
  Py.replace "a.txt.txtb.tx.txt" ".txt" "" = "ab.tx".
Proof. reflexivity. Qed.

Example join_three : Py.join ", " [".txt"; ".pdf"; ".md"] = ".txt, .pdf, .md".
Proof. reflexivity. Qed.

Example gate_upper_case : extension_allowed "REPORT.PDF" = true.
Proof. reflexivity. Qed.

Example gate_mixed_case : extension_allowed "Lease.DocX" = true.
Proof. reflexivity. Qed.

Example gate_other_type : extension_allowed "archive.tar.gz" = false.
Proof. reflexivity. Qed.

Example gate_no_dot : extension_allowed "txt" = false.
Proof. reflexivity. Qed.

Example clause_numbering :
  clause_entry 11 {| text := "T"; source_name := "N"; matched_by := "bow" |}
  = "Clause 12" +:+ nl +:+ "Name: N" +:+ nl +:+ "Method: bow" +:+ nl
    +:+ "Full Text:" +:+ nl +:+ "T" +:+ nl +:+ nl.
Proof. by_evaluation. Qed.

Example demo_candidates :
  candidates (C := Demo.collaborators Demo.faithful) (Demo.globals None)
    (String.length Demo.query_text) Demo.query_text
  = Some Demo.frame.
Proof. by_evaluation. Qed.

Example demo_faithful_reply :
  fst (run (C := Demo.collaborators Demo.faithful)
         (find_clauses (Demo.globals None) Demo.upload) Demo.start)
  = dict_matches
      [ {| name := "Green Lease";
           child_name := "Green Lease Lite";
           clause_url := "/clauses/green-lease";
           reason := "fits";
           emissions_sources := [] |} ].
Proof. by_evaluation. Qed.

(** C1, as stated, fails.  (1) The service returns a corpus name short
    of its last letter; the name passes the close-match test, no retry
    is made, and the name in the reply is not a key of the index once
    ".txt" is appended.  (2) The service invents a name twice; the
    retry's answer is taken as it is. *)
Lemma names_are_index_keys_fails :
  (let C := Demo.collaborators Demo.near_miss in
   let G := Demo.globals None in
   let r := run (find_clauses G Demo.upload) Demo.start in
   match_names (fst r) = ["Net Zero Supply Chain Obligation"]
   /\ length (completions (snd r)) = 2%nat
   /\ ~ names_are_index_keys G (fst r))
  /\ (let C := Demo.collaborators Demo.inventive in
      let G := Demo.globals None in
      let r := run (find_clauses G Demo.upload) Demo.start in
      match_names (fst r) = ["Carbon Unicorn"]
      /\ length (completions (snd r)) = 3%nat
      /\ ~ names_are_index_keys G (fst r)).
Proof.
  split; cbv zeta.
  - assert (E : match_names
                  (fst (run (C := Demo.collaborators Demo.near_miss)
                          (find_clauses (Demo.globals None) Demo.upload)
                          Demo.start))
                = ["Net Zero Supply Chain Obligation"]) by by_evaluation.
    split; [exact E|]. split; [by_evaluation|].
    intros H. specialize (H "Net Zero Supply Chain Obligation").
    rewrite E in H. specialize (H ltac:(left)).
    vm_compute in H. repeat (apply elem_of_cons in H as [H|H]; [discriminate H|]).
    inversion H.
  - assert (E : match_names
                  (fst (run (C := Demo.collaborators Demo.inventive)
                          (find_clauses (Demo.globals None) Demo.upload)
                          Demo.start))
                = ["Carbon Unicorn"]) by by_evaluation.
    split; [exact E|]. split; [by_evaluation|].
    intros H. specialize (H "Carbon Unicorn").
    rewrite E in H. specialize (H ltac:(left)).
    vm_compute in H. repeat (apply elem_of_cons in H as [H|H]; [discriminate H|]).
    inversion H.
Qed.

Lemma demo_enrichment_keeps_names (llm : CompletionRequest -> string) :
  forall (d : list SelectionRow)
         (r : EnrichedRow (Labels (Collaborators := Demo.collaborators llm))),
    r ∈ get_emission_label (Collaborators := Demo.collaborators llm) d ->
    exists r0, r0 ∈ d /\ row_Clause_Name r = Clause_Name r0.
Proof.
  intros d r. cbn. intros (r0 & -> & Hr0)%list_elem_of_fmap.
  exists r0. split; [exact Hr0 | reflexivity].
Defined.

(** The near-miss run: the name in the reply is a returned name that
    passed the close-match test. *)
Lemma match_names_checked_or_retried_witness :
  let C := Demo.collaborators Demo.near_miss in
  let G := Demo.globals None in
  "Net Zero Supply Chain Obligation"
    ∈ match_names (fst (run (find_clauses G Demo.upload) Demo.start))
  /\ exists clause,
       "Net Zero Supply Chain Obligation" = Py.replace clause ".txt" ""
       /\ get_close_matches (clause +:+ ".txt") (names G) 1 0.8%Q <> [].
Proof.
  cbv zeta.
  assert (Hin : "Net Zero Supply Chain Obligation"
                  ∈ match_names
                      (fst (run (C := Demo.collaborators Demo.near_miss)
                              (find_clauses (Demo.globals None) Demo.upload)
                              Demo.start)))
    by (vm_compute; constructor).
  split; [exact Hin|].
  destruct (match_names_checked_or_retried
              (C := Demo.collaborators Demo.near_miss) (Demo.globals None)
              Demo.upload Demo.start "Net Zero Supply Chain Obligation"
              (demo_enrichment_keeps_names Demo.near_miss) Hin)
    as (qt & df & d1 & clause & Hc & Hd & H1 & Hn
        & [(_ & _ & Hclose) | (Hm & _)]).
  - exists clause. split; [exact Hn | exact Hclose].
  - exfalso. apply Hm.
    vm_compute in Hc. injection Hc as <-.
    vm_compute in Hd. injection Hd as <-.
    vm_compute in H1. injection H1 as <-.
    by_evaluation.
Defined.

(** The inventive run: one returned name has no close match, so the log
    ends with the single corrective request. *)
Lemma validation_then_single_unchecked_retry_witness :
  let C := Demo.collaborators Demo.inventive in
  let G := Demo.globals None in
  let d1 := [ {| Clause_Name := "Carbon Unicorn"; Reasoning := "fits" |} ] in
  first_frame G Demo.query_text Demo.frame = Some d1
  /\ missing_clauses G d1 = ["Carbon Unicorn"]
  /\ completions (snd (run (find_clauses G Demo.upload) Demo.start))
     = [ context_request G Demo.query_text;
         selection_request G Demo.query_text Demo.frame;
         retry_request G Demo.query_text Demo.frame (missing_clauses G d1) ]
  /\ fst (run (find_clauses G Demo.upload) Demo.start)
     = dict_matches (build_matches G (get_emission_label d1)).
Proof.
  cbv zeta.
  set (C := Demo.collaborators Demo.inventive).
  set (G := Demo.globals None).
  set (d1 := [ {| Clause_Name := "Carbon Unicorn"; Reasoning := "fits" |} ]).
  assert (H1 : first_frame G Demo.query_text Demo.frame = Some d1)
    by by_evaluation.
  assert (Hm : missing_clauses G d1 = ["Carbon Unicorn"]) by by_evaluation.
  split; [exact H1|]. split; [exact Hm|].
  destruct (validation_then_single_unchecked_retry G Demo.upload Demo.start
              Demo.query_text Demo.frame d1
              ltac:(by_evaluation) ltac:(by_evaluation) ltac:(by_evaluation) H1)
    as (_ & Hretry & _ & Hunchecked).
  assert (Hun : exists clause,
             clause ∈ Clause_Name <$> d1
             /\ get_close_matches (clause +:+ ".txt") (names G) 1 0.8%Q = []).
  { exists "Carbon Unicorn". split; [vm_compute; constructor | by_evaluation]. }
  split.
  - exact (proj1 Hretry Hun).
  - apply (Hunchecked d1 Hun). by_evaluation.
Defined.

(** The garbled runs: an empty list of matches after two calls, and
    after three. *)
Lemma unparsed_reply_gives_empty_matches_witness :
  (let C := Demo.collaborators Demo.garbled in
   let G := Demo.globals None in
   first_frame G Demo.query_text Demo.frame = None
   /\ fst (run (find_clauses G Demo.upload) Demo.start) = dict_matches []
   /\ length (completions (snd (run (find_clauses G Demo.upload) Demo.start)))
      = 2%nat)
  /\ (let C := Demo.collaborators Demo.garbled_retry in
      let G := Demo.globals None in
      retry_frame G Demo.query_text Demo.frame ["Carbon Unicorn"] = None
      /\ fst (run (find_clauses G Demo.upload) Demo.start) = dict_matches []
      /\ length (completions (snd (run (find_clauses G Demo.upload) Demo.start)))
         = 3%nat).
Proof.
  split; cbv zeta.
  - set (C := Demo.collaborators Demo.garbled).
    assert (H1 : first_frame (Demo.globals None) Demo.query_text Demo.frame = None)
      by by_evaluation.
    split; [exact H1|].
    destruct (unparsed_reply_gives_empty_matches (Demo.globals None) Demo.upload
                Demo.start Demo.query_text Demo.frame
                ltac:(by_evaluation) ltac:(by_evaluation) ltac:(by_evaluation))
      as [Hfirst _].
    rewrite (Hfirst H1). split; reflexivity.
  - set (C := Demo.collaborators Demo.garbled_retry).
    assert (H2 : retry_frame (Demo.globals None) Demo.query_text Demo.frame
                   ["Carbon Unicorn"] = None) by by_evaluation.
    split; [exact H2|].
    destruct (unparsed_reply_gives_empty_matches (Demo.globals None) Demo.upload
                Demo.start Demo.query_text Demo.frame
                ltac:(by_evaluation) ltac:(by_evaluation) ltac:(by_evaluation))
      as [_ Hretry].
    rewrite (Hretry [ {| Clause_Name := "Carbon Unicorn"; Reasoning := "fits" |} ]
               ltac:(by_evaluation) ltac:(vm_compute; discriminate)
               ltac:(by_evaluation)).
    split; reflexivity.
Defined.

(** Retrieval on the small corpus: three rows for a cluster of one, and
    the first [bow] row scores above the threshold. *)
Lemma candidate_count_and_bow_threshold_witness :
  let C := Demo.collaborators Demo.faithful in
  let G := Demo.globals None in
  candidates G (String.length Demo.query_text) Demo.query_text = Some Demo.frame
  /\ (length Demo.frame <= 1 + 5)%nat
  /\ (0.1 < Demo.similarity Demo.query_text "The tenant shall reduce energy use.")%Q.
Proof.
  cbv zeta.
  assert (Hd : candidates (C := Demo.collaborators Demo.faithful)
                 (Demo.globals None) (String.length Demo.query_text)
                 Demo.query_text = Some Demo.frame) by by_evaluation.
  split; [exact Hd|].
  destruct (candidate_count_and_bow_threshold
              (C := Demo.collaborators Demo.faithful) (Demo.globals None)
              (String.length Demo.query_text) Demo.query_text Demo.frame
              Demo.similarity Demo.embedding_similarity Hd) as [Hlen Hbow].
  split; [exact Hlen|].
  apply (Hbow (fun _ _ _ _ _ => eq_refl) (fun _ _ _ _ => eq_refl)
           {| text := "The tenant shall reduce energy use.";
              source_name := "Green Lease.txt";
              matched_by := "bow" |}).
  - right. left.
  - reflexivity.
Defined.

(** Retrieval on the small corpus: the clause found by both strategies
    is in the frame twice. *)
Lemma candidates_are_cluster_then_bow_witness :
  let C := Demo.collaborators Demo.faithful in
  let G := Demo.globals None in
  candidates G (String.length Demo.query_text) Demo.query_text = Some Demo.frame
  /\ exists i j r1 r2,
       (i < j)%nat
       /\ Demo.frame !! i = Some r1 /\ Demo.frame !! j = Some r2
       /\ source_name r1 = "Net Zero Supply Chain Obligations.txt"
       /\ matched_by r1 = "cluster"
       /\ source_name r2 = "Net Zero Supply Chain Obligations.txt"
       /\ matched_by r2 = "bow".
Proof.
  cbv zeta.
  assert (Hd : candidates (C := Demo.collaborators Demo.faithful)
                 (Demo.globals None) (String.length Demo.query_text)
                 Demo.query_text = Some Demo.frame) by by_evaluation.
  split; [exact Hd|].
  destruct (candidates_are_cluster_then_bow
              (C := Demo.collaborators Demo.faithful) (Demo.globals None)
              (String.length Demo.query_text) Demo.query_text
              ["The supplier shall report emissions."]
              ["Net Zero Supply Chain Obligations.txt"]
              ["Green Lease.txt"; "Net Zero Supply Chain Obligations.txt"]
              ["The tenant shall reduce energy use.";
               "The supplier shall report emissions."]
              Demo.frame ltac:(by_evaluation) ltac:(by_evaluation) Hd)
    as (dc & db & _ & _ & _ & _ & _ & _ & _ & _ & Htwice).
  destruct (Htwice "Net Zero Supply Chain Obligations.txt"
              ltac:(left) ltac:(right; left))
    as (i & j & r1 & r2 & Hij & Hi & Hj & Hn1 & Hg1 & Hn2 & Hg2).
  exists i, j, r1, r2. repeat split; try assumption. lia.
Defined.


(** The inventive run with a configured model: the retry goes to the
    default model, the selection call to the configured one. *)
Lemma retry_uses_default_model_witness :
  let C := Demo.collaborators Demo.inventive in
  let G := Demo.globals (Some "openrouter/auto") in
  let new := completions (snd (run (find_clauses G Demo.upload) Demo.start)) in
  getenv_OPENROUTER_MODEL G = Some "openrouter/auto"
  /\ "openrouter/auto" <> DEFAULT_MODEL
  /\ model <$> new = ["openrouter/auto"; "openrouter/auto"; DEFAULT_MODEL]
  /\ exists sel retry,
       new !! 1%nat = Some sel /\ new !! 2%nat = Some retry
       /\ model retry <> model sel.
Proof.
  cbv zeta.
  set (C := Demo.collaborators Demo.inventive).
  set (G := Demo.globals (Some "openrouter/auto")).
  set (new := completions (snd (run (find_clauses G Demo.upload) Demo.start))).
  assert (Hne : "openrouter/auto" <> DEFAULT_MODEL) by discriminate.
  split; [reflexivity|]. split; [exact Hne|]. split; [by_evaluation|].
  destruct (retry_uses_default_model G Demo.upload Demo.start new eq_refl)
    as [_ Hdiff].
  exists (selection_request G Demo.query_text Demo.frame),
         (retry_request G Demo.query_text Demo.frame ["Carbon Unicorn"]).
  assert (H1 : new !! 1%nat
               = Some (selection_request G Demo.query_text Demo.frame))
    by by_evaluation.
  assert (H2 : new !! 2%nat
               = Some (retry_request G Demo.query_text Demo.frame
                         ["Carbon Unicorn"]))
    by by_evaluation.
  split; [exact H1|]. split; [exact H2|].
  exact (proj2 (proj2 (Hdiff "openrouter/auto" _ _ eq_refl Hne H1 H2))).
Defined.

(** Two caches that differ only in the text kept with the embedding:
    the replies of [find_clauses] are the same. *)
Lemma cached_text_is_never_read_witness :
  let C := Demo.collaborators Demo.faithful in
  let G := Demo.globals None in
  let s1 : State :=
    {| embedding_cache :=
         {[ "33" := {| entry_embedding := 7%nat; entry_text := "one text" |} ]};
       completions := [] |} in
  let s2 : State :=
    {| embedding_cache :=
         {[ "33" := {| entry_embedding := 7%nat; entry_text := "another" |} ]};
       completions := [] |} in
  entry_embedding <$> embedding_cache s1 = entry_embedding <$> embedding_cache s2
  /\ fst (run (find_clauses G Demo.upload) s1)
     = fst (run (find_clauses G Demo.upload) s2)
  /\ completions (snd (run (find_clauses G Demo.upload) s1))
     = completions (snd (run (find_clauses G Demo.upload) s2)).
Proof.
  cbv zeta.
  set (C := Demo.collaborators Demo.faithful).
  set (s1 := {| embedding_cache :=
                  {[ "33" := {| entry_embedding := 7%nat;
                                entry_text := "one text" |} ]};
                completions := [] |} : State).
  set (s2 := {| embedding_cache :=
                  {[ "33" := {| entry_embedding := 7%nat;
                                entry_text := "another" |} ]};
                completions := [] |} : State).
  assert (He : entry_embedding <$> embedding_cache s1
               = entry_embedding <$> embedding_cache s2) by by_evaluation.
  split; [exact He|].
  destruct (cached_text_is_never_read (Demo.globals None) Demo.upload s1 s2
              eq_refl He) as (Hfst & Hsnd & _).
  split; [exact Hfst | exact Hsnd].
Defined.

(** * Further properties of the handlers *)

(** ** Requests that are turned away *)


(** ** The cache under the two handlers *)

Lemma process_contract_state {C : Collaborators} (file : UploadFile) (s : State) :
  snd (run (process_contract file) s) = s
  \/ exists t,
       snd (run (process_contract file) s)
       = {| embedding_cache :=
              <[md5_hexdigest (file_bytes file) :=
                  {| entry_embedding := encode_text t; entry_text := t |}]>
                (embedding_cache s);
            completions := completions s |}.
Proof.
  unfold run. rewrite process_contract_cases.
  destruct recreate_directories; [|now left].
  destruct (extension_allowed (filename file)); [|now left].
  destruct (write_bytes _ _); [|now left].
  destruct (convert_file_to_text _ _) as [t|e]; [|now left].
  destruct (write_text _ _); [|now left].
  right. now exists t.
Qed.

Lemma find_clauses_cache_cases {C : Collaborators} (G : Globals)
    (file : UploadFile) (s : State) :
  embedding_cache (snd (run (find_clauses G file) s)) = embedding_cache s
  \/ embedding_cache (snd (run (find_clauses G file) s))
     = delete (md5_hexdigest (file_bytes file)) (embedding_cache s).
Proof.
  destruct (extension_allowed (filename file)) eqn:Hx.
  - destruct (convert_file_to_text (file_bytes file) (filename file))
      as [t|e] eqn:Hc.
    + right. exact (find_clauses_cache G file s t Hx Hc).
    + left. now rewrite find_clauses_stopped by eauto.
  - left. now rewrite find_clauses_stopped by auto.
Qed.

(** X2. A request touches at most the cache entry under the digest of
    its own upload: every other digest maps to what it mapped to
    before, under both handlers.  [find_clauses] never adds an entry,
    and [process_contract] never calls the completion service. *)
Theorem handlers_touch_only_their_digest {C : Collaborators} (G : Globals)
    (file : UploadFile) (s : State) :
  (forall k,
     k <> md5_hexdigest (file_bytes file) ->
     embedding_cache (snd (run (find_clauses G file) s)) !! k
     = embedding_cache s !! k
     /\ embedding_cache (snd (run (process_contract file) s)) !! k
        = embedding_cache s !! k)
  /\ dom (embedding_cache (snd (run (find_clauses G file) s)))
     ⊆ dom (embedding_cache s)
  /\ completions (snd (run (process_contract file) s)) = completions s.
Proof.
  split; [|split].
  - intros k Hk. split.
    + destruct (find_clauses_cache_cases G file s) as [-> | ->];
        [reflexivity | now rewrite lookup_delete_ne].
    + destruct (process_contract_state file s) as [-> | [t ->]];
        [reflexivity|]. cbn [embedding_cache]. now rewrite lookup_insert_ne.
  - destruct (find_clauses_cache_cases G file s) as [-> | ->];
      [reflexivity|]. rewrite dom_delete_L. now apply subseteq_difference_l.
  - destruct (process_contract_state file s) as [-> | [t ->]]; reflexivity.
Qed.

(** X3. A request that passed the gate and the conversion has consumed
    the cache entry of its upload however it ends.  In particular, when
    the candidate frame cannot be built the handler fails before any
    completion call, and the entry is gone all the same. *)
Theorem failed_frame_still_consumes_entry {C : Collaborators} (G : Globals)
    (file : UploadFile) (s : State) (qt : string) :
  extension_allowed (filename file) = true ->
  convert_file_to_text (file_bytes file) (filename file) = Ok qt ->
  let h := md5_hexdigest (file_bytes file) in
  embedding_cache (snd (run (find_clauses G file) s)) !! h = None
  /\ (candidates G (query_embedding_in s h qt) qt = None ->
      fst (run (find_clauses G file) s) = unhandled_ValueError
      /\ completions (snd (run (find_clauses G file) s)) = completions s).
Proof.
  intros Hx Hc h. split.
  - rewrite (find_clauses_cache G file s qt Hx Hc). apply lookup_delete_eq.
  - intros Hd. unfold run.
    rewrite (find_clauses_accepted G file s qt Hx Hc). cbv zeta. fold h.
    rewrite Hd. cbn [fst snd]. split; [reflexivity | apply completions_taken].
Qed.

(** X4. The cache is keyed by the bytes alone.  After a
    [process_contract] request that reached its store (directories in
    place, upload and text copy written, conversion returned),
    [find_clauses] on an upload with the same bytes runs
    retrieval on the embedding stored by the first request, also when
    the file name differs and the conversion gives another text: the
    selection request is built from the candidates of the stored
    embedding and the new text. *)
Theorem cache_is_keyed_by_bytes {C : Collaborators} (G : Globals)
    (f1 f2 : UploadFile) (s : State) (t1 t2 : string)
    (df : list CandidateClause) :
  file_bytes f1 = file_bytes f2 ->
  recreate_directories = Ok tt ->
  extension_allowed (filename f1) = true ->
  write_bytes (original_file_path f1) (file_bytes f1) = Ok tt ->
  convert_file_to_text (file_bytes f1) (filename f1) = Ok t1 ->
  write_text (txt_file_path f1) t1 = Ok tt ->
  extension_allowed (filename f2) = true ->
  convert_file_to_text (file_bytes f2) (filename f2) = Ok t2 ->
  candidates G (encode_text t1) t2 = Some df ->
  let s1 := snd (run (process_contract f1) s) in
  exists rest,
    completions (snd (run (find_clauses G f2) s1))
    = completions s ++ context_request G t2 :: selection_request G t2 df :: rest.
Proof.
  intros Hb Hdir Hx1 Hw1 Hc1 Hw1' Hx2 Hc2 Hd s1.
  assert (Hq : query_embedding_in s1 (md5_hexdigest (file_bytes f2)) t2
               = encode_text t1).
  { subst s1. unfold run, query_embedding_in.
    rewrite (process_contract_accepted f1 s t1 Hdir Hx1 Hw1 Hc1 Hw1').
    cbn [snd embedding_cache].
    now rewrite Hb, lookup_insert_eq. }
  assert (Hl : completions s1 = completions s).
  { subst s1. unfold run.
    now rewrite (process_contract_accepted f1 s t1 Hdir Hx1 Hw1 Hc1 Hw1'). }
  rewrite <- Hq in Hd.
  rewrite (find_clauses_run G f2 s1 t2 df Hx2 Hc2 Hd). cbv zeta.
  destruct (first_frame G t2 df) as [d1|];
    [|cbn [snd]; rewrite completions_logged_taken, Hl; eauto].
  destruct (bool_decide _);
    [cbn [snd]; rewrite completions_logged_taken, Hl; eauto|].
  destruct (retry_frame _ _ _ _);
    cbn [snd]; rewrite completions_logged_taken, Hl; eauto.
Qed.

(** ** The conversation as a whole *)

(** X5. The conversation only grows.  Of two requests that follow each
    other in a run, the messages of the first are the beginning of the
    messages of the second, which adds the assistant's reply and one
    user message.  The first request holds the system and the user
    message, and every request ends with a user message. *)
Theorem conversation_is_append_only {C : Collaborators} (G : Globals)
    (file : UploadFile) (s : State) (new : list CompletionRequest) :
  completions (snd (run (find_clauses G file) s)) = completions s ++ new ->
  (forall first, new !! 0%nat = Some first -> roles_of first = ["system"; "user"])
  /\ (forall i r1 r2,
        new !! i = Some r1 -> new !! S i = Some r2 ->
        exists reply_text user_text,
          messages r2
          = messages r1
            ++ [ {| role := "assistant";
                    content := reply_text |};
                 {| role := "user"; content := user_text |} ]
          /\ reply_text = chat_completions_create r1)
  /\ (forall r, r ∈ new -> last (roles_of r) = Some "user").
Proof.
  intros Hnew.
  destruct (find_clauses_log G file s) as (new' & Hlog & Hcases).
  rewrite Hlog in Hnew. apply app_inv_head in Hnew. subst new'.
  assert (Hsel : forall qt df,
    messages (selection_request G qt df)
    = messages (context_request G qt)
      ++ [ {| role := "assistant";
              content := chat_completions_create (context_request G qt) |};
           {| role := "user"; content := clause_block df |} ])
    by reflexivity.
  assert (Hre : forall qt df missing,
    messages (retry_request G qt df missing)
    = messages (selection_request G qt df)
      ++ [ {| role := "assistant";
              content := chat_completions_create (selection_request G qt df) |};
           {| role := "user"; content := correction_prompt missing |} ]).
  { intros. reflexivity. }
  destruct Hcases as [-> | (qt & df & [-> | (missing & _ & ->)])].
  - split; [intros ? [=]|]. split; [intros ? ? ? [=]|].
    intros r Hr. inversion Hr.
  - split; [intros ? [= <-]; reflexivity|]. split.
    + intros [|[|i]] r1 r2 H1 H2; try discriminate H2.
      injection H1 as <-. injection H2 as <-. rewrite Hsel. eauto.
    + intros r Hr. repeat (apply elem_of_cons in Hr as [->|Hr]; [reflexivity|]).
      inversion Hr.
  - split; [intros ? [= <-]; reflexivity|]. split.
    + intros [|[|[|i]]] r1 r2 H1 H2; try discriminate H2.
      * injection H1 as <-. injection H2 as <-. rewrite Hsel. eauto.
      * injection H1 as <-. injection H2 as <-. rewrite Hre. eauto.
    + intros r Hr. repeat (apply elem_of_cons in Hr as [->|Hr]; [reflexivity|]).
      inversion Hr.
Qed.

(** X6. Every request to the completion service asks for temperature 0.
    Only the first request of a run, the context confirmation, caps the
    reply, at 1000 tokens; the selection and the retry are uncapped. *)
Theorem requests_are_deterministic_and_capped_once {C : Collaborators}
    (G : Globals) (file : UploadFile) (s : State) (new : list CompletionRequest) :
  completions (snd (run (find_clauses G file) s)) = completions s ++ new ->
  (forall r, r ∈ new -> temperature r = 0%Q)
  /\ (forall i r,
        new !! i = Some r ->
        max_tokens r = if decide (i = 0%nat) then Some 1000%Z else None).
Proof.
  intros Hnew.
  destruct (find_clauses_log G file s) as (new' & Hlog & Hcases).
  rewrite Hlog in Hnew. apply app_inv_head in Hnew. subst new'.
  destruct Hcases as [-> | (qt & df & [-> | (missing & _ & ->)])].
  - split; [intros r Hr; inversion Hr | intros i r [=]].
  - split.
    + intros r Hr. repeat (apply elem_of_cons in Hr as [->|Hr]; [reflexivity|]).
      inversion Hr.
    + intros [|[|i]] r [= <-]; reflexivity.
  - split.
    + intros r Hr. repeat (apply elem_of_cons in Hr as [->|Hr]; [reflexivity|]).
      inversion Hr.
    + intros [|[|[|i]]] r [= <-]; reflexivity.
Qed.

(** ** The matches of a reply *)

(** X7. Every match of a reply carries the child name and the URL that
    the two tables hold under the displayed name, the name after the
    removal of ".txt", and the empty string where a table has no such
    key.  The list of matches is empty when the reply that was to be
    used did not parse.  Otherwise it is built from the frame that was
    accepted (the first one when every name had a close match, else the
    retry's) after the enrichment: one match per row of
    [get_emission_label] of that frame, at the position of its row,
    with the name, the reasoning and the labels of that row. *)
Theorem matches_are_looked_up_by_displayed_name {C : Collaborators}
    (G : Globals) (file : UploadFile) (s : State) (ms : list (Match Sources)) :
  fst (run (find_clauses G file) s) = dict_matches ms ->
  (forall m, m ∈ ms ->
     child_name m = default "" (name_to_child G !! name m)
     /\ clause_url m = default "" (name_to_url G !! name m)
     /\ (name_to_child G !! name m = None -> child_name m = "")
     /\ (name_to_url G !! name m = None -> clause_url m = ""))
  /\ exists qt df,
       convert_file_to_text (file_bytes file) (filename file) = Ok qt
       /\ candidates G
            (query_embedding_in s (md5_hexdigest (file_bytes file)) qt) qt
          = Some df
       /\ ((ms = []
            /\ (first_frame G qt df = None
                \/ exists d1,
                     first_frame G qt df = Some d1
                     /\ missing_clauses G d1 <> []
                     /\ retry_frame G qt df (missing_clauses G d1) = None))
           \/ exists d,
                ((first_frame G qt df = Some d /\ missing_clauses G d = [])
                 \/ exists d1,
                      first_frame G qt df = Some d1
                      /\ missing_clauses G d1 <> []
                      /\ retry_frame G qt df (missing_clauses G d1) = Some d)
                /\ length ms = length (get_emission_label d)
                /\ forall i r,
                     get_emission_label d !! i = Some r ->
                     exists m,
                       ms !! i = Some m
                       /\ name m = Py.replace (row_Clause_Name r) ".txt" ""
                       /\ reason m = row_Reasoning r
                       /\ emissions_sources m
                          = parse_emissions_sources (combined_labels r)).
Proof.
  intros Hr.
  assert (Hbuilt : forall rows i r,
    rows !! i = Some r ->
    exists m,
      build_matches G rows !! i = Some m
      /\ name m = Py.replace (row_Clause_Name r) ".txt" ""
      /\ reason m = row_Reasoning r
      /\ emissions_sources m = parse_emissions_sources (combined_labels r)).
  { intros rows i r Hi. exists (build_match G r). unfold build_matches.
    rewrite list_lookup_fmap, Hi. repeat split. }
  assert (Hlook : forall rows m,
    m ∈ build_matches G rows ->
    child_name m = default "" (name_to_child G !! name m)
    /\ clause_url m = default "" (name_to_url G !! name m)
    /\ (name_to_child G !! name m = None -> child_name m = "")
    /\ (name_to_url G !! name m = None -> clause_url m = "")).
  { intros rows m (r & -> & _)%list_elem_of_fmap. cbn.
    repeat split; intros ->; reflexivity. }
  destruct (extension_allowed (filename file)) eqn:Hx.
  2:{ unfold run in Hr. rewrite find_clauses_rejected in Hr by assumption.
      discriminate Hr. }
  destruct (convert_file_to_text (file_bytes file) (filename file))
    as [qt|e] eqn:Hc.
  2:{ unfold run in Hr.
      rewrite (find_clauses_unconverted G file s e Hx Hc) in Hr.
      discriminate Hr. }
  destruct (find_clauses_outcome G file s qt Hx Hc)
    as [Hd | df Hd H1 | df d1 Hd H1 Hm | df d1 Hd H1 Hm H2 | df d1 d2 Hd H1 Hm H2];
    try discriminate Hr; injection Hr as <-.
  - split; [intros m Hm; inversion Hm|]. exists qt, df.
    split; [reflexivity|]. split; [exact Hd|]. left. split; [reflexivity|].
    now left.
  - split; [apply Hlook|]. exists qt, df.
    split; [reflexivity|]. split; [exact Hd|]. right. exists d1.
    split; [left; now split|].
    split; [unfold build_matches; apply length_fmap | apply Hbuilt].
  - split; [intros m Hm'; inversion Hm'|]. exists qt, df.
    split; [reflexivity|]. split; [exact Hd|]. left. split; [reflexivity|].
    right. now exists d1.
  - split; [apply Hlook|]. exists qt, df.
    split; [reflexivity|]. split; [exact Hd|]. right. exists d2.
    split; [right; now exists d1|].
    split; [unfold build_matches; apply length_fmap | apply Hbuilt].
Qed.

(** ** Sequences of requests *)

Section ServeFacts.

Context {C : Collaborators}.
Variable G : Globals.



Lemma handle_log (c : Call) (s : State) :
  exists new,
    completions (snd (handle G c s)) = completions s ++ new
    /\ (length new <= 3 * count_find [c])%nat.
Proof.
  destruct c as [file|file]; cbn [handle count_find].
  - exists []. rewrite app_nil_r. split; [|cbn; lia].
    destruct (process_contract_state file s) as [-> | [t ->]]; reflexivity.
  - destruct (find_clauses_log G file s) as (new & Hlog & Hcases).
    exists new. split; [exact Hlog|].
    destruct Hcases as [-> | (qt & df & [-> | (missing & _ & ->)])];
      cbn; lia.
Qed.


(** X9. Across any sequence of requests the log of completion requests
    only grows at its end, and by at most three requests for each
    [find_clauses] request served; [process_contract] requests add
    none. *)
Theorem log_grows_by_three_per_find (calls : list Call) (s : State) :
  exists new,
    completions (serve G calls s) = completions s ++ new
    /\ (length new <= 3 * count_find calls)%nat.
Proof.
  revert s. induction calls as [|c calls IH]; intros s; cbn [serve].
  - exists []. rewrite app_nil_r. split; [reflexivity | cbn; lia].
  - destruct (handle_log c s) as (n1 & H1 & L1).
    destruct (IH (snd (handle G c s))) as (n2 & H2 & L2).
    exists (n1 ++ n2). rewrite H2, H1, <- app_assoc. split; [reflexivity|].
    rewrite length_app. destruct c; cbn [count_find] in *; lia.
Qed.

End ServeFacts.

(** ** More on the string functions *)

Lemma app_assoc_string (a b c : string) : (a +:+ b) +:+ c = a +:+ b +:+ c.
Proof.
  induction a as [|x a IH]; [reflexivity|].
  rewrite !app_cons. now rewrite IH.
Qed.

Lemma startswith_spec (s p : string) :
  Py.startswith s p = true <-> exists q, s = p +:+ q.
Proof.
  revert s. induction p as [|a p IH]; intros s.
  - split; [intros _; now exists s | now destruct s].
  - destruct s as [|b s]; cbn [Py.startswith].
    + split; [discriminate | intros [q Hq]; discriminate Hq].
    + destruct (ascii_dec a b) as [->|Hne].
      * rewrite IH. split; intros [q Hq]; exists q.
        -- now rewrite app_cons, Hq.
        -- rewrite app_cons in Hq. now injection Hq.
      * split; [discriminate|]. intros [q Hq]. rewrite app_cons in Hq.
        injection Hq as Hab _. congruence.
Qed.

Lemma occurs_tail (old : string) (c : ascii) (s : string) :
  occurs old s -> occurs old (String c s).
Proof. intros (p & q & ->). now exists (String c p), q. Qed.

Lemma occurs_head (old s : string) :
  Py.startswith s old = true -> occurs old s.
Proof. intros [q ->]%startswith_spec. now exists EmptyString, q. Qed.

Lemma replace_go_absent (old new s : string) :
  ~ occurs old s -> Py.replace_go old new 0 s = s.
Proof.
  induction s as [|c s IH]; intros Hno; [reflexivity|].
  cbn [Py.replace_go].
  destruct (Py.startswith (String c s) old) eqn:Hs.
  - exfalso. now apply Hno, occurs_head.
  - f_equal. apply IH. intros Ho. now apply Hno, occurs_tail.
Qed.

(** ".txt" cannot begin inside a string and end inside a ".txt" that
    follows it: the dot is its first character only. *)
Lemma startswith_before_txt (n : string) :
  Py.startswith (n +:+ ".txt") ".txt" = true ->
  n = EmptyString \/ Py.startswith n ".txt" = true.
Proof.
  destruct n as [|a [|b [|c [|d n]]]]; rewrite ?app_cons, ?app_nil;
    cbn [Py.startswith]; intros H; auto;
    repeat (match type of H with
            | (if ascii_dec ?x ?y then _ else _) = true =>
                destruct (ascii_dec x y); [subst|discriminate H]
            end);
    try discriminate.
  right. repeat (destruct (ascii_dec _ _); [|congruence]). now destruct n.
Qed.

Lemma replace_go_txt_suffix (n : string) :
  ~ occurs ".txt" n -> Py.replace_go ".txt" "" 0 (n +:+ ".txt") = n.
Proof.
  induction n as [|c n IH]; intros Hno; [reflexivity|].
  rewrite app_cons. cbn [Py.replace_go].
  destruct (Py.startswith (String c (n +:+ ".txt")) ".txt") eqn:Hs.
  - exfalso. rewrite <- app_cons in Hs.
    apply startswith_before_txt in Hs as [Hs|Hs]; [discriminate Hs|].
    now apply Hno, occurs_head.
  - f_equal. apply IH. intros Ho. now apply Hno, occurs_tail.
Qed.

(** X10. The displayed name is the clause name without its suffix,
    whichever form the completion service answers in: for a name [n]
    in which ".txt" does not occur, both a row naming [n] and a row
    naming [n + ".txt"] give a match named [n].  More generally the
    removal leaves a name without ".txt" as it is. *)
Theorem displayed_name_drops_the_suffix {C : Collaborators} (G : Globals)
    (n : string) (r : EnrichedRow Labels) :
  ~ occurs ".txt" n ->
  Py.replace n ".txt" "" = n
  /\ Py.replace (n +:+ ".txt") ".txt" "" = n
  /\ (row_Clause_Name r = n \/ row_Clause_Name r = n +:+ ".txt" ->
      name (build_match G r) = n).
Proof.
  intros Hno.
  assert (H1 : Py.replace n ".txt" "" = n) by now apply replace_go_absent.
  assert (H2 : Py.replace (n +:+ ".txt") ".txt" "" = n)
    by now apply replace_go_txt_suffix.
  split; [exact H1|]. split; [exact H2|].
  intros [E|E]; cbn [build_match name]; now rewrite E.
Qed.

Lemma length_take_le (n : nat) (s : string) :
  (String.length (Py.take n s) <= n)%nat.
Proof.
  revert s. induction n as [|n IH]; intros [|c s]; cbn; try lia.
  specialize (IH s). lia.
Qed.

Lemma lstrip_spec (s : string) :
  exists l, s = l +:+ Py.lstrip s /\ all_space l = true
            /\ (forall c rest, Py.lstrip s = String c rest -> Py.isspace c = false).
Proof.
  induction s as [|c s (l & Hs & Hl & Hfirst)].
  - exists EmptyString. repeat split. intros c rest [=].
  - cbn [Py.lstrip]. destruct (Py.isspace c) eqn:Hc.
    + exists (String c l). rewrite app_cons, <- Hs. cbn [all_space].
      rewrite Hc, Hl. repeat split. exact Hfirst.
    + exists EmptyString. repeat split. intros c' rest [= <- _]. exact Hc.
Qed.

Lemma rstrip_spec (s : string) :
  exists r, s = Py.rstrip s +:+ r /\ all_space r = true
            /\ (forall c, last_char (Py.rstrip s) = Some c -> Py.isspace c = false)
            /\ (forall c rest, s = String c rest -> Py.isspace c = false ->
                               exists rest', Py.rstrip s = String c rest').
Proof.
  induction s as [|c s (r & Hs & Hr & Hlast & _)].
  - exists EmptyString. repeat split; [intros c [=] | intros c rest [=]].
  - cbn [Py.rstrip]. destruct (Py.rstrip s) as [|d t] eqn:Ht.
    + rewrite app_nil in Hs. subst r.
      destruct (Py.isspace c) eqn:Hc.
      * exists (String c s). cbn [all_space]. rewrite Hc, Hr.
        repeat split; [intros c' [=] | intros c' rest [= <- _]; congruence].
      * exists s. repeat split; [assumption | |].
        -- intros c' [= <-]. exact Hc.
        -- intros c' rest [= <- _] _. eauto.
    + exists r. rewrite app_cons, <- Hs. repeat split; [assumption | |].
      * intros c' Hc'. apply Hlast. exact Hc'.
      * intros c' rest [= <- _] _. eauto.
Qed.

Lemma isspace_python_space (c : ascii) :
  Py.isspace c = true <-> python_space c.
Proof.
  unfold Py.isspace, python_space.
  rewrite orb_true_iff, !andb_true_iff, !Nat.leb_le.
  rewrite !elem_of_cons, elem_of_nil. lia.
Qed.

Lemma all_space_python_space (s : string) :
  all_space s = true -> Forall python_space (list_ascii_of_string s).
Proof.
  induction s as [|c s IH]; cbn [all_space list_ascii_of_string];
    [constructor|].
  intros [Hc Hs]%andb_true_iff. constructor; [|now apply IH].
  now apply isspace_python_space.
Qed.

Lemma length_take_min (n : nat) (s : string) :
  String.length (Py.take n s) = Nat.min n (String.length s).
Proof.
  revert s. induction n as [|n IH]; intros [|c s]; cbn; try reflexivity.
  now rewrite IH.
Qed.

(** X11. The contract shown to the completion service is the first
    1000 characters of the converted text with the white space at both
    ends removed and nothing else.  For an accepted upload whose text
    is in the ASCII range, the first request of the run has two
    messages, and the user message holds, between "Here's the
    contract:" and the request for a confirmation, an excerpt such
    that: the text is some white space, the excerpt, some white space
    and a remainder; the part before the remainder has 1000 characters,
    or is the whole text if that is shorter; and the excerpt neither
    begins nor ends with white space. *)
Theorem contract_excerpt_is_stripped_prefix {C : Collaborators} (G : Globals)
    (file : UploadFile) (s : State) (query_text : string)
    (df : list CandidateClause) :
  ascii_only query_text = true ->
  extension_allowed (filename file) = true ->
  convert_file_to_text (file_bytes file) (filename file) = Ok query_text ->
  candidates G
    (query_embedding_in s (md5_hexdigest (file_bytes file)) query_text)
    query_text = Some df ->
  exists first later excerpt l r remainder,
    completions (snd (run (find_clauses G file) s))
    = completions s ++ first :: later
    /\ messages first
       = [ {| role := "system"; content := system_prompt |};
           {| role := "user";
              content :=
                "Here's the contract:" +:+ nl +:+ nl +:+ excerpt +:+ nl +:+ nl
                +:+ "I will send you some clauses next. For now, just confirm you have read the contract and are ready to receive the clauses. A short summary of the content of the contract would be fine." |} ]
    /\ query_text = (l +:+ excerpt +:+ r) +:+ remainder
    /\ String.length (l +:+ excerpt +:+ r)
       = Nat.min 1000 (String.length query_text)
    /\ Forall python_space (list_ascii_of_string l)
    /\ Forall python_space (list_ascii_of_string r)
    /\ (forall c rest, excerpt = String c rest -> ~ python_space c)
    /\ (forall c, last_char excerpt = Some c -> ~ python_space c)
    /\ (String.length excerpt <= 1000)%nat.
Proof.
  intros _ Hx Hc Hd.
  set (t := Py.take 1000 query_text).
  destruct (lstrip_spec t) as (l & Hl & Hls & Hfirst).
  destruct (rstrip_spec (Py.lstrip t)) as (r & Hr & Hrs & Hlast & Hkeep).
  assert (Hdec : t = l +:+ Py.rstrip (Py.lstrip t) +:+ r)
    by now rewrite <- Hr.
  assert (Hlog : exists later,
    completions (snd (run (find_clauses G file) s))
    = completions s ++ context_request G query_text :: later).
  { rewrite (find_clauses_run G file s query_text df Hx Hc Hd). cbv zeta.
    destruct (first_frame G query_text df) as [d1|];
      [|cbn [snd]; rewrite completions_logged_taken; eauto].
    destruct (bool_decide _);
      [cbn [snd]; rewrite completions_logged_taken; eauto|].
    destruct (retry_frame _ _ _ _);
      cbn [snd]; rewrite completions_logged_taken; eauto. }
  destruct Hlog as [later Hlog].
  exists (context_request G query_text), later,
    (Py.rstrip (Py.lstrip t)), l, r, (Py.drop 1000 query_text).
  split; [exact Hlog|]. split; [reflexivity|].
  split; [rewrite <- Hdec; symmetry; apply take_drop|].
  split; [rewrite <- Hdec; apply length_take_min|].
  split; [now apply all_space_python_space|].
  split; [now apply all_space_python_space|].
  split; [|split].
  - intros c rest Hcr Hsp. apply isspace_python_space in Hsp.
    destruct (Py.lstrip t) as [|c0 rest0] eqn:Hlt; [discriminate Hcr|].
    pose proof (Hfirst c0 rest0 eq_refl) as Hc0.
    destruct (Hkeep c0 rest0 eq_refl Hc0) as [rest' Hrest'].
    rewrite Hrest' in Hcr. injection Hcr as <- _. congruence.
  - intros c Hcl Hsp. apply isspace_python_space in Hsp.
    specialize (Hlast c Hcl). congruence.
  - pose proof (length_take_le 1000 query_text) as Hlen. fold t in Hlen.
    rewrite Hdec in Hlen. rewrite !length_append in Hlen. lia.
Qed.

Lemma clause_entries_lookup (k i : nat) (rows : list CandidateClause)
    (row : CandidateClause) :
  rows !! i = Some row ->
  exists pre post,
    clause_entries k rows = pre +:+ clause_entry (k + i) row +:+ post.
Proof.
  revert k i. induction rows as [|r rows IH]; intros k i Hi; [discriminate Hi|].
  destruct i as [|i]; cbn [clause_entries].
  - injection Hi as <-. exists EmptyString, (clause_entries (S k) rows).
    now rewrite Nat.add_0_r.
  - destruct (IH (S k) i Hi) as (pre & post & ->).
    exists (clause_entry k r +:+ pre), post.
    rewrite app_assoc_string. now replace (S k + i)%nat with (k + S i)%nat by lia.
Qed.

(** X12. The selection prompt presents every candidate: the row at
    position [i] of the frame (from 0) is in the prompt as the block
    numbered [i + 1] with its name, its method and its full text, the
    blocks come between the heading and the rules, and the prompt is
    the last message of the selection request. *)
Theorem selection_prompt_lists_every_candidate {C : Collaborators} (G : Globals)
    (query_text : string) (combined_df : list CandidateClause) (i : nat)
    (row : CandidateClause) :
  combined_df !! i = Some row ->
  last (messages (selection_request G query_text combined_df))
  = Some {| role := "user"; content := clause_block combined_df |}
  /\ exists pre post,
       clause_block combined_df
       = "Here are the clauses:" +:+ nl +:+ nl +:+ pre
         +:+ ("Clause " +:+ pretty (i + 1)%nat +:+ nl
              +:+ "Name: " +:+ source_name row +:+ nl
              +:+ "Method: " +:+ matched_by row +:+ nl
              +:+ "Full Text:" +:+ nl +:+ text row +:+ nl +:+ nl)
         +:+ post +:+ selection_rules.
Proof.
  intros Hi. split; [reflexivity|].
  destruct (clause_entries_lookup 0 i combined_df row Hi) as (pre & post & E).
  exists pre, post. unfold clause_block. rewrite E. cbn [Nat.add].
  unfold clause_entry, Py.str_of_nat.
  now rewrite !app_assoc_string.
Qed.

Lemma occursb_spec (old s : string) : occursb old s = true <-> occurs old s.
Proof.
  induction s as [|c s IH].
  - cbn [occursb]. rewrite orb_false_r, startswith_spec. split.
    + intros [q ->]. now exists EmptyString, q.
    + intros ([|x p] & q & E); [now exists q | discriminate E].
  - cbn [occursb]. rewrite orb_true_iff, IH, startswith_spec. split.
    + intros [[q ->] | Ho]; [now exists EmptyString, q | now apply occurs_tail].
    + intros ([|x p] & q & E).
      * left. now exists q.
      * right. rewrite app_cons in E. injection E as _ ->. now exists p, q.
Qed.

Lemma not_occurs_by_search (old s : string) :
  occursb old s = false -> ~ occurs old s.
Proof. intros Hb Ho%occursb_spec. congruence. Qed.

(** ** The frontend pages *)


(** ** The rendering step *)

Lemma strip_empty : Py.strip "" = "".
Proof. reflexivity. Qed.

(** X14. The Markdown kept for rendering is never blank: it is a
    string with something other than white space in it, taken from the
    [text_content] attribute if the object has one, else from the
    [markdown] attribute if it has one, else [str(result)] unless that
    is "None".  When the object has a [text_content] attribute, the
    [markdown] attribute is not consulted, also if [text_content] is
    [None] or blank.  An exception or a false result gives no
    Markdown. *)
Theorem markdown_content_is_never_blank
    (conv : result (option Rendering.ConvertResult)) (m : string) :
  Rendering.markdown_content_of conv = Some m ->
  Py.strip m <> "" /\ m <> ""
  /\ exists r,
       conv = Ok (Some r)
       /\ (Rendering.attr_text_content r = Some (Some m)
           \/ (Rendering.attr_text_content r = None
               /\ Rendering.attr_markdown r = Some (Some m))
           \/ (Rendering.attr_text_content r = None
               /\ Rendering.attr_markdown r = None
               /\ Rendering.str_result r = m /\ m <> "None")).
Proof.
  assert (Hguard : forall o : option string,
    (if negb (Rendering.truthy o)
        || String.eqb (Py.strip (Rendering.str o)) ""
     then None else o) = Some m ->
    o = Some m /\ Py.strip m <> "" /\ m <> "").
  { intros [x|]; cbn [Rendering.truthy Rendering.str negb orb];
      [|discriminate].
    unfold Rendering.truthy_str.
    destruct (String.eqb x "") eqn:E1; cbn [negb orb]; [discriminate|].
    destruct (String.eqb (Py.strip x) "") eqn:E2; [discriminate|].
    intros [= ->]. apply String.eqb_neq in E1, E2. auto. }
  unfold Rendering.markdown_content_of.
  destruct conv as [[r|]|e]; [|discriminate|discriminate].
  intros H. apply Hguard in H as (H & Hs & Hm).
  split; [exact Hs|]. split; [exact Hm|]. exists r. split; [reflexivity|].
  destruct (Rendering.attr_text_content r) as [v|]; [left; now subst|].
  right. destruct (Rendering.attr_markdown r) as [v|]; [left; now subst|].
  right. destruct (String.eqb (Rendering.str_result r) "None") eqn:En;
    cbn [orb] in H; [discriminate H|].
  destruct (negb _) in H; [discriminate H|]. injection H as <-.
  apply String.eqb_neq in En. auto.
Qed.

Lemma markdown_content_truthy
    (conv : result (option Rendering.ConvertResult)) (m : string) :
  Rendering.markdown_content_of conv = Some m ->
  Rendering.truthy (Some m) && Rendering.truthy_str (Py.strip m) = true.
Proof.
  unfold Rendering.markdown_content_of.
  destruct conv as [[r|]|e]; [|discriminate|discriminate].
  match goal with
  | |- (if negb (Rendering.truthy ?o) || _ then _ else _) = _ -> _ =>
      destruct o as [x|]
  end; cbn [Rendering.truthy Rendering.str negb orb]; [|discriminate].
  unfold Rendering.truthy_str.
  destruct (String.eqb x "") eqn:E1; cbn [negb orb]; [discriminate|].
  destruct (String.eqb (Py.strip x) "") eqn:E2; [discriminate|].
  now intros [= <-]; rewrite E1, E2.
Qed.

(** X15. The document saved is the Markdown rendering only when
    Markdown was kept and the renderer returned; in every other case,
    the renderer raising included, it is the plain highlighting of the
    classified sentences, so the rendering step never fails the
    request.  The renderer is given the sentences the classifier
    marked 1 or the keyword list matched, in the order of the frame. *)
Theorem rendering_falls_back_to_plain_highlighting
    (render_markdown_with_highlights :
       string -> string -> list string -> result string)
    (highlight_climate_content : list Rendering.ResultRow -> string)
    (conv : result (option Rendering.ConvertResult))
    (full_contract_text : string) (result_df : list Rendering.ResultRow) :
  Rendering.render_document render_markdown_with_highlights
    highlight_climate_content conv full_contract_text result_df
  = match Rendering.markdown_content_of conv with
    | Some m =>
        match render_markdown_with_highlights m full_contract_text
                (Rendering.highlighted_sentences_of result_df) with
        | Ok out => out
        | Raised _ => highlight_climate_content result_df
        end
    | None => highlight_climate_content result_df
    end
  /\ (forall x,
        x ∈ Rendering.highlighted_sentences_of result_df <->
        exists r, r ∈ result_df /\ Rendering.sentence r = x
                  /\ (Rendering.prediction r = 1%Z
                      \/ Rendering.contains_climate_keyword r = true))
  /\ Rendering.highlighted_sentences_of result_df
       `sublist_of` (Rendering.sentence <$> result_df).
Proof.
  split; [|split].
  - unfold Rendering.render_document, Rendering.highlighted_output_of.
    destruct (Rendering.markdown_content_of conv) as [m|] eqn:Hm;
      [|reflexivity].
    cbn [Rendering.str]. now rewrite (markdown_content_truthy conv m Hm).
  - intros x. unfold Rendering.highlighted_sentences_of.
    rewrite list_elem_of_fmap. split.
    + intros (r & -> & Hr%list_elem_of_filter). exists r. tauto.
    + intros (r & Hr & <- & Hp). exists r. split; [reflexivity|].
      apply list_elem_of_filter. tauto.
  - unfold Rendering.highlighted_sentences_of.
    apply fmap_sublist, sublist_filter.
Qed.

(** * The further properties on the small deployments *)

Example index_path_under_base :
  Frontend.INDEX_PATH "/srv/app" = "/srv/app/provocotype-1/index.htm".
Proof. reflexivity. Qed.

Example page_refuses_other_case :
  Frontend.read_root "/srv/app" (fun _ => true)
    {| Frontend.username := "Father"; Frontend.password := "christmas" |}
  = Frontend.Refused
      {| Frontend.status_code := 401;
         Frontend.detail := "Incorrect username or password";
         Frontend.headers := [("WWW-Authenticate", "Basic")] |}.
Proof. reflexivity. Qed.

Example text_content_shadows_markdown :
  Rendering.markdown_content_of
    (Ok (Some {| Rendering.attr_text_content := Some (Some "  ");
                 Rendering.attr_markdown := Some (Some "# Title");
                 Rendering.str_result := "<result>" |}))
  = None.
Proof. reflexivity. Qed.

(** Columns of different lengths: the reply is the unhandled error, no
    completion call is made, and the entry stored before is gone. *)
Lemma failed_frame_still_consumes_entry_witness :
  let C := Uneven.collaborators in
  let G := Demo.globals None in
  let s : State :=
    {| embedding_cache :=
         {[ "33" := {| entry_embedding := 33%nat;
                       entry_text := Demo.query_text |} ]};
       completions := [] |} in
  candidates G (query_embedding_in s "33" Demo.query_text) Demo.query_text = None
  /\ fst (run (find_clauses G Demo.upload) s) = unhandled_ValueError
  /\ completions (snd (run (find_clauses G Demo.upload) s)) = []
  /\ embedding_cache (snd (run (find_clauses G Demo.upload) s)) !! "33" = None.
Proof.
  cbv zeta.
  set (s := {| embedding_cache :=
                 {[ "33" := {| entry_embedding := 33%nat;
                               entry_text := Demo.query_text |} ]};
               completions := [] |} : State (C := Uneven.collaborators)).
  assert (Hd : candidates (C := Uneven.collaborators) (Demo.globals None)
                 (query_embedding_in s "33" Demo.query_text) Demo.query_text
               = None) by by_evaluation.
  split; [exact Hd|].
  pose proof (failed_frame_still_consumes_entry (C := Uneven.collaborators)
                (Demo.globals None) Demo.upload s Demo.query_text
                ltac:(by_evaluation) ltac:(by_evaluation)) as H.
  cbv zeta in H. destruct H as [Hgone Hfail].
  destruct (Hfail Hd) as [Hreply Hlog].
  split; [exact Hreply|]. split; [exact Hlog | exact Hgone].
Defined.

(** The same bytes under two names: retrieval for the Markdown upload
    runs on the embedding of the text upload (33), not on that of its
    own text (35). *)
Lemma cache_is_keyed_by_bytes_witness :
  let C := ByName.collaborators in
  let G := Demo.globals None in
  let df := [ {| text := "33"; source_name := "Green Lease.txt";
                 matched_by := "cluster" |} ] in
  let t2 := "# The supplier shall deliver goods." in
  let s1 := snd (run (process_contract ByName.as_text) Demo.start) in
  encode_text Demo.query_text = 33%nat
  /\ encode_text t2 = 35%nat
  /\ candidates G (encode_text Demo.query_text) t2 = Some df
  /\ exists rest,
       completions (snd (run (find_clauses G ByName.as_markdown) s1))
       = context_request G t2 :: selection_request G t2 df :: rest.
Proof.
  cbv zeta.
  set (df := [ {| text := "33"; source_name := "Green Lease.txt";
                  matched_by := "cluster" |} ]).
  assert (Hd : candidates (C := ByName.collaborators) (Demo.globals None)
                 (encode_text (Collaborators := ByName.collaborators)
                    Demo.query_text)
                 "# The supplier shall deliver goods." = Some df)
    by by_evaluation.
  split; [reflexivity|]. split; [reflexivity|]. split; [exact Hd|].
  exact (cache_is_keyed_by_bytes (C := ByName.collaborators) (Demo.globals None)
           ByName.as_text ByName.as_markdown Demo.start Demo.query_text
           "# The supplier shall deliver goods." df
           eq_refl eq_refl eq_refl eq_refl eq_refl eq_refl eq_refl eq_refl Hd).
Defined.

(** The inventive run: three requests, each extending the one before. *)
Lemma conversation_is_append_only_witness :
  let C := Demo.collaborators Demo.inventive in
  let G := Demo.globals None in
  let new := completions (snd (run (find_clauses G Demo.upload) Demo.start)) in
  length new = 3%nat
  /\ roles_of <$> new
     = [ ["system"; "user"];
         ["system"; "user"; "assistant"; "user"];
         ["system"; "user"; "assistant"; "user"; "assistant"; "user"] ]
  /\ forall r, r ∈ new -> last (roles_of r) = Some "user".
Proof.
  cbv zeta.
  set (C := Demo.collaborators Demo.inventive).
  split; [by_evaluation|]. split; [by_evaluation|].
  exact (proj2 (proj2 (conversation_is_append_only (Demo.globals None)
                         Demo.upload Demo.start _ eq_refl))).
Defined.

Lemma requests_are_deterministic_and_capped_once_witness :
  let C := Demo.collaborators Demo.inventive in
  let G := Demo.globals None in
  let new := completions (snd (run (find_clauses G Demo.upload) Demo.start)) in
  max_tokens <$> new = [Some 1000%Z; None; None]
  /\ forall r, r ∈ new -> temperature r = 0%Q.
Proof.
  cbv zeta.
  set (C := Demo.collaborators Demo.inventive).
  split; [by_evaluation|].
  exact (proj1 (requests_are_deterministic_and_capped_once (Demo.globals None)
                  Demo.upload Demo.start _ eq_refl)).
Defined.

(** The faithful run: the one match is looked up under "Green Lease". *)
Lemma matches_are_looked_up_by_displayed_name_witness :
  let C := Demo.collaborators Demo.faithful in
  let G := Demo.globals None in
  let m := {| name := "Green Lease";
              child_name := "Green Lease Lite";
              clause_url := "/clauses/green-lease";
              reason := "fits";
              emissions_sources := [] |} in
  fst (run (find_clauses G Demo.upload) Demo.start) = dict_matches [m]
  /\ child_name m = default "" (name_to_child G !! name m)
  /\ clause_url m = default "" (name_to_url G !! name m).
Proof.
  cbv zeta.
  set (m := {| name := "Green Lease";
               child_name := "Green Lease Lite";
               clause_url := "/clauses/green-lease";
               reason := "fits";
               emissions_sources := [] : Sources (Collaborators :=
                                           Demo.collaborators Demo.faithful) |}).
  assert (Hr : fst (run (C := Demo.collaborators Demo.faithful)
                      (find_clauses (Demo.globals None) Demo.upload) Demo.start)
               = dict_matches [m]) by by_evaluation.
  split; [exact Hr|].
  destruct (matches_are_looked_up_by_displayed_name
              (C := Demo.collaborators Demo.faithful) (Demo.globals None)
              Demo.upload Demo.start [m] Hr) as [Hlook _].
  destruct (Hlook m ltac:(left)) as (Hc & Hu & _).
  split; [exact Hc | exact Hu].
Defined.


Lemma displayed_name_drops_the_suffix_witness :
  let C := Demo.collaborators Demo.faithful in
  let r := {| row_Clause_Name := "Green Lease.txt";
              row_Reasoning := "fits";
              combined_labels := None |} in
  ~ occurs ".txt" "Green Lease"
  /\ name (build_match (Demo.globals None) r) = "Green Lease".
Proof.
  cbv zeta.
  assert (Hno : ~ occurs ".txt" "Green Lease")
    by (apply not_occurs_by_search; reflexivity).
  split; [exact Hno|].
  apply (displayed_name_drops_the_suffix
           (C := Demo.collaborators Demo.faithful) (Demo.globals None)
           "Green Lease" _ Hno).
  right. reflexivity.
Defined.

Lemma selection_prompt_lists_every_candidate_witness :
  let C := Demo.collaborators Demo.faithful in
  Demo.frame !! 1%nat
  = Some {| text := "The tenant shall reduce energy use.";
            source_name := "Green Lease.txt";
            matched_by := "bow" |}
  /\ exists pre post,
       clause_block Demo.frame
       = "Here are the clauses:" +:+ nl +:+ nl +:+ pre
         +:+ ("Clause " +:+ pretty 2%nat +:+ nl
              +:+ "Name: Green Lease.txt" +:+ nl
              +:+ "Method: bow" +:+ nl
              +:+ "Full Text:" +:+ nl
              +:+ "The tenant shall reduce energy use." +:+ nl +:+ nl)
         +:+ post +:+ selection_rules.
Proof.
  cbv zeta. split; [reflexivity|].
  exact (proj2 (selection_prompt_lists_every_candidate
                  (C := Demo.collaborators Demo.faithful) (Demo.globals None)
                  Demo.query_text Demo.frame 1
                  {| text := "The tenant shall reduce energy use.";
                     source_name := "Green Lease.txt";
                     matched_by := "bow" |} eq_refl)).
Defined.

Lemma markdown_content_is_never_blank_witness :
  let r := {| Rendering.attr_text_content := None;
              Rendering.attr_markdown := Some (Some "# Lease");
              Rendering.str_result := "<result>" |} in
  Rendering.markdown_content_of (Ok (Some r)) = Some "# Lease"
  /\ Py.strip "# Lease" <> "".
Proof.
  cbv zeta. split; [reflexivity|].
  exact (proj1 (markdown_content_is_never_blank
                  (Ok (Some {| Rendering.attr_text_content := None;
                               Rendering.attr_markdown := Some (Some "# Lease");
                               Rendering.str_result := "<result>" |}))
                  "# Lease" eq_refl)).
Defined.

(** * The gate, the file writes and the excerpt on the small deployments *)

Example join_under_base :
  Py.os_path_join "/srv/app/temp_uploads" ["dir/Supply.txt"]
  = "/srv/app/temp_uploads/dir/Supply.txt".
Proof. reflexivity. Qed.

Example join_restarts_at_root :
  Py.os_path_join "/srv/app/temp_uploads" ["/etc/x.txt"] = "/etc/x.txt".
Proof. reflexivity. Qed.

Example splitext_last_dot : Py.splitext_root "a.b.TXT" = "a.b".
Proof. reflexivity. Qed.

Example splitext_leading_dot : Py.splitext_root ".txt" = ".txt".
Proof. reflexivity. Qed.

Example splitext_dot_in_directory : Py.splitext_root "dir.d/file" = "dir.d/file".
Proof. reflexivity. Qed.

(** A name with a directory in it passes the extension test, but the
    upload cannot be written: the handler ends in the uncaught error
    and stores nothing. *)
Example nested_name_is_not_stored :
  run (C := Demo.collaborators Demo.faithful)
    (process_contract
       {| filename := "dir/Supply.txt"; file_bytes := file_bytes Demo.upload |})
    Demo.start
  = (unhandled_OSError "[Errno 2] No such file or directory", Demo.start).
Proof. by_evaluation. Qed.

(** Upper-case and mixed-case variants of the five extensions pass the
    test under both handlers; other names are refused. *)
Lemma extension_gate_ignores_case_witness :
  let C := Demo.collaborators Demo.faithful in
  let G := Demo.globals None in
  let named n := {| filename := n; file_bytes := file_bytes Demo.upload |} in
  let refusal :=
    JSONResponse_error
      "Only .txt, .pdf, .docx, .doc, .md files are supported." 400 in
  Forall (fun n =>
            fst (run (find_clauses G (named n)) Demo.start) <> refusal
            /\ fst (run (process_contract (named n)) Demo.start) <> refusal)
         ["REPORT.PDF"; "Lease.DocX"; "a.TXT"; "b.Doc"; "c.mD"]
  /\ Forall (fun n =>
               fst (run (find_clauses G (named n)) Demo.start) = refusal
               /\ ~ exists ext,
                      ext ∈ [".txt"; ".pdf"; ".docx"; ".doc"; ".md"]
                      /\ ends_with_variant_of ext n)
            ["notes.rtf"; "txt"; "archive.tar.gz"; "paper.pdf.bak"].
Proof.
  cbv zeta.
  pose (named := fun n => {| filename := n; file_bytes := file_bytes Demo.upload |}).
  assert (Hpass : forall stem ext,
    In (Py.lower ext) [".txt"; ".pdf"; ".docx"; ".doc"; ".md"] ->
    fst (run (C := Demo.collaborators Demo.faithful)
           (find_clauses (Demo.globals None) (named (stem +:+ ext))) Demo.start)
    <> JSONResponse_error
         "Only .txt, .pdf, .docx, .doc, .md files are supported." 400
    /\ fst (run (C := Demo.collaborators Demo.faithful)
              (process_contract (named (stem +:+ ext))) Demo.start)
       <> JSONResponse_error
            "Only .txt, .pdf, .docx, .doc, .md files are supported." 400).
  { intros stem ext Hin.
    destruct (extension_gate_ignores_case
                (C := Demo.collaborators Demo.faithful) (Demo.globals None)
                (named (stem +:+ ext)) Demo.start) as (_ & _ & _ & H).
    destruct (H stem ext eq_refl) as (_ & Hf & Hp);
      [now apply list_elem_of_In | now split]. }
  assert (Hfail : forall n,
    fst (run (C := Demo.collaborators Demo.faithful)
           (find_clauses (Demo.globals None) (named n)) Demo.start)
    = JSONResponse_error
        "Only .txt, .pdf, .docx, .doc, .md files are supported." 400 ->
    fst (run (C := Demo.collaborators Demo.faithful)
           (find_clauses (Demo.globals None) (named n)) Demo.start)
    = JSONResponse_error
        "Only .txt, .pdf, .docx, .doc, .md files are supported." 400
    /\ ~ exists ext,
           ext ∈ [".txt"; ".pdf"; ".docx"; ".doc"; ".md"]
           /\ ends_with_variant_of ext n).
  { intros n Hn. split; [exact Hn|].
    destruct (extension_gate_ignores_case
                (C := Demo.collaborators Demo.faithful) (Demo.globals None)
                (named n) Demo.start) as (_ & H & _).
    now apply H. }
  split.
  - constructor; [apply (Hpass "REPORT" ".PDF"); vm_compute; tauto|].
    constructor; [apply (Hpass "Lease" ".DocX"); vm_compute; tauto|].
    constructor; [apply (Hpass "a" ".TXT"); vm_compute; tauto|].
    constructor; [apply (Hpass "b" ".Doc"); vm_compute; tauto|].
    constructor; [apply (Hpass "c" ".mD"); vm_compute; tauto|].
    constructor.
  - constructor; [apply Hfail; by_evaluation|].
    constructor; [apply Hfail; by_evaluation|].
    constructor; [apply Hfail; by_evaluation|].
    constructor; [apply Hfail; by_evaluation|].
    constructor.
Defined.

(** An upload padded with white space: the excerpt in the first request
    is the text without the padding. *)
Lemma contract_excerpt_is_stripped_prefix_witness :
  let C := Demo.collaborators Demo.faithful in
  let G := Demo.globals None in
  let padded :=
    {| filename := "Padded.txt";
       file_bytes :=
         list_byte_of_string
           ("  The supplier shall deliver goods." +:+ nl +:+ " ") |} in
  exists first later excerpt,
    completions (snd (run (find_clauses G padded) Demo.start)) = first :: later
    /\ messages first !! 1%nat
       = Some {| role := "user";
                 content :=
                   "Here's the contract:" +:+ nl +:+ nl +:+ excerpt +:+ nl +:+ nl
                   +:+ "I will send you some clauses next. For now, just confirm you have read the contract and are ready to receive the clauses. A short summary of the content of the contract would be fine." |}
    /\ (forall c rest, excerpt = String c rest -> ~ python_space c)
    /\ (String.length excerpt <= 1000)%nat.
Proof.
  cbv zeta.
  set (padded :=
         {| filename := "Padded.txt";
            file_bytes :=
              list_byte_of_string
                ("  The supplier shall deliver goods." +:+ nl +:+ " ") |}).
  eassert (Hd : candidates (C := Demo.collaborators Demo.faithful)
                  (Demo.globals None)
                  (query_embedding_in (C := Demo.collaborators Demo.faithful)
                     Demo.start
                     (md5_hexdigest (Collaborators := Demo.collaborators Demo.faithful)
                        (file_bytes padded))
                     ("  The supplier shall deliver goods." +:+ nl +:+ " "))
                  ("  The supplier shall deliver goods." +:+ nl +:+ " ")
                = Some _) by by_evaluation.
  destruct (contract_excerpt_is_stripped_prefix
              (C := Demo.collaborators Demo.faithful) (Demo.globals None)
              padded Demo.start
              ("  The supplier shall deliver goods." +:+ nl +:+ " ") _
              ltac:(by_evaluation) ltac:(by_evaluation) ltac:(by_evaluation) Hd)
    as (first & later & excerpt & l & r & remainder
        & Hlog & Hmsg & _ & _ & _ & _ & Hfirst & _ & Hlen).
  exists first, later, excerpt.
  split; [exact Hlog|]. split; [now rewrite Hmsg|].
  split; [exact Hfirst | exact Hlen].
Defined.
